(** * Auto-detected operator configuration: src/internal/config/main.go

    A shallow embedding of the Go package [config]: the [Config] struct,
    its constructor [New], the detection pass [AutoDetect], the start-up
    entry point [StartAutoDetect] with its periodic loop, and the
    mutex-guarded store [openshiftRoutesWrapper].

    Go statements that read or write shared objects become computations
    of a small state monad [Go S A]; a computation either finishes, or
    waits for ever on a mutex nobody releases, or panics.

    The calls of one goroutine run one after the other. The probe and
    the registered callbacks are arbitrary functions on an environment
    [Env] of their own: they return, and they do not reach back into the
    [Config]. Every call a pass makes on the probe, the store and the
    change handler is written down in a history, which the properties
    below read. *)

From Stdlib Require Import List String ZArith Bool Arith Lia.
Import ListNotations.
Local Open Scope string_scope.
Local Open Scope list_scope.

(** ** Outcomes and the state monad of a goroutine *)

Inductive Outcome (A : Type) : Type :=
| Done (a : A)
| Blocked
| Panicked.

Arguments Done {A} a.
Arguments Blocked {A}.
Arguments Panicked {A}.

Definition Go (S A : Type) : Type := S -> Outcome (A * S).

Definition ret {S A : Type} (a : A) : Go S A :=
  fun s => Done (a, s).

Definition bind {S A B : Type} (m : Go S A) (k : A -> Go S B) : Go S B :=
  fun s =>
    match m s with
    | Done (a, s') => k a s'
    | Blocked => Blocked
    | Panicked => Panicked
    end.

Definition gets {S A : Type} (f : S -> A) : Go S A :=
  fun s => Done (f s, s).

Definition modify {S : Type} (f : S -> S) : Go S unit :=
  fun s => Done (tt, f s).

Definition panic {S A : Type} : Go S A :=
  fun _ => Panicked.

(** Run a computation on a component of the state. *)
Definition zoom {S T A : Type} (get : S -> T) (put : T -> S -> S)
  (m : Go T A) : Go S A :=
  fun s =>
    match m (get s) with
    | Done (a, t) => Done (a, put t s)
    | Blocked => Blocked
    | Panicked => Panicked
    end.

Declare Scope go_scope.
Delimit Scope go_scope with go.
Notation "x <- m ;; k" := (bind m (fun x => k))
  (at level 61, m at next level, right associativity) : go_scope.
Notation "m ;; k" := (bind m (fun _ => k))
  (at level 61, right associativity) : go_scope.
Local Open Scope go_scope.

(** Go's [error] interface: a nil error is [None]; a non-nil error is
    known by its message. *)
Definition error : Type := string.

(** The (value, error) pair a fallible Go function returns; the value is
    only looked at when the error is nil. *)
Inductive Result (A : Type) : Type :=
| Ok (a : A)
| Err (e : error).

Arguments Ok {A} a.
Arguments Err {A} e.

(** ** Package sync *)

Module sync.

(** A [sync.Mutex]; its zero value is unlocked. *)
Record Mutex : Type := { locked : bool }.

Definition zero : Mutex := {| locked := false |}.

(** [Lock] on a held mutex waits until it is released. *)
Definition Lock : Go Mutex unit :=
  fun m => if locked m then Blocked else Done (tt, {| locked := true |}).

(** [Unlock] of a mutex that is not held is a fatal error. *)
Definition Unlock : Go Mutex unit :=
  fun m => if locked m then Done (tt, {| locked := false |}) else Panicked.

End sync.

(** ** Package time *)

Module time.

Definition Duration : Type := Z.
Definition Nanosecond : Duration := 1%Z.
Definition Second : Duration := (1000000000 * Nanosecond)%Z.

End time.

(** ** Package autodetect *)

Module autodetect.

(** Modelled from the spec: the type [autodetect.OpenShiftRoutesAvailability]
    is declared outside main.go; the data model gives it as a tri-state
    enumeration Unknown, Available, NotAvailable. *)
Inductive OpenShiftRoutesAvailability : Type :=
| OpenShiftRoutesUnknown
| OpenShiftRoutesAvailable
| OpenShiftRoutesNotAvailable.

Definition OpenShiftRoutesAvailability_eq_dec
  (a b : OpenShiftRoutesAvailability) : {a = b} + {a <> b}.
Proof. decide equality. Defined.

(** Modelled from the spec: the type [autodetect.AutoscalingVersion] is
    declared outside main.go; the data model names the versions V1, V2,
    V2Beta1 and V2Beta2. *)
Inductive AutoscalingVersion : Type :=
| AutoscalingVersionV1
| AutoscalingVersionV2
| AutoscalingVersionV2Beta1
| AutoscalingVersionV2Beta2.

Module AutoDetect.

(** The interface [autodetect.AutoDetect], as far as main.go calls it: an
    implementation is a pair of methods, each of which inspects (and may
    change) the environment [Env] the operator runs in. *)
Record t (Env : Type) : Type := {
  OpenShiftRoutesAvailability :
    Env -> Result OpenShiftRoutesAvailability * Env;
  HPAVersion :
    Env -> Result AutoscalingVersion * Env
}.

Arguments OpenShiftRoutesAvailability {Env} _ _.
Arguments HPAVersion {Env} _ _.

End AutoDetect.

End autodetect.

(** ** Package logr *)

Module logr.

(** A value logged under a key. *)
Inductive Value : Type :=
| VAvailability (ora : autodetect.OpenShiftRoutesAvailability)
| VError (e : error)
| VStringOf (v : autodetect.AutoscalingVersion).

(** One record handed to the log sink by the logger called [name]. *)
Inductive Entry : Type :=
| InfoEntry (name : string) (V : nat) (msg : string)
    (keysAndValues : list (string * Value))
| ErrorEntry (name : string) (err : error) (msg : string)
    (keysAndValues : list (string * Value)).

(** A [logr.Logger], known by its name. *)
Record Logger : Type := { name : string }.

End logr.

Module logf.

(** The root logger, which has no name. *)
Definition Log : logr.Logger := {| logr.name := "" |}.

(** [l.WithName(n)], for the root logger [l]. *)
Definition WithName (l : logr.Logger) (n : string) : logr.Logger :=
  {| logr.name := n |}.

End logf.

(** ** Package config: the store of the routes availability *)

(** The struct [openshiftRoutesWrapper], the one implementation in
    main.go of the interface [openshiftRoutesStore]. *)
Record openshiftRoutesWrapper : Type := {
  mu : sync.Mutex;
  current : autodetect.OpenShiftRoutesAvailability
}.

Definition set_mu (m : sync.Mutex) (p : openshiftRoutesWrapper) :
  openshiftRoutesWrapper :=
  {| mu := m; current := current p |}.

Definition set_current (ora : autodetect.OpenShiftRoutesAvailability)
  (p : openshiftRoutesWrapper) : openshiftRoutesWrapper :=
  {| mu := mu p; current := ora |}.

Definition newOpenShiftRoutesWrapper : openshiftRoutesWrapper :=
  {| mu := sync.zero; current := autodetect.OpenShiftRoutesNotAvailable |}.

(** Method [Set] of [*openshiftRoutesWrapper] ([Set] itself is a reserved
    word here). *)
Definition Set_ (ora : autodetect.OpenShiftRoutesAvailability) :
  Go openshiftRoutesWrapper unit :=
  zoom mu set_mu sync.Lock ;;
  modify (set_current ora) ;;
  zoom mu set_mu sync.Unlock.

(** Method [Get] of [*openshiftRoutesWrapper]. *)
Definition Get : Go openshiftRoutesWrapper autodetect.OpenShiftRoutesAvailability :=
  zoom mu set_mu sync.Lock ;;
  ora <- gets current ;;
  zoom mu set_mu sync.Unlock ;;
  ret ora.

(** A client of the store issues a sequence of calls. *)
Inductive StoreCall : Type :=
| CallGet
| CallSet (ora : autodetect.OpenShiftRoutesAvailability).

Definition is_CallSet (c : StoreCall) : bool :=
  match c with
  | CallGet => false
  | CallSet _ => true
  end.

(** The calls run one after the other; the result lists what the [Get]s
    among them returned. *)
Fixpoint run_calls (cs : list StoreCall) :
  Go openshiftRoutesWrapper (list autodetect.OpenShiftRoutesAvailability) :=
  match cs with
  | [] => ret []
  | CallGet :: rest =>
      ora <- Get ;;
      seen <- run_calls rest ;;
      ret (ora :: seen)
  | CallSet ora :: rest =>
      Set_ ora ;;
      run_calls rest
  end.

(** The argument of the last [Set] among [cs], or [d] when there is none. *)
Fixpoint last_Set (cs : list StoreCall)
  (d : autodetect.OpenShiftRoutesAvailability) :
  autodetect.OpenShiftRoutesAvailability :=
  match cs with
  | [] => d
  | CallGet :: rest => last_Set rest d
  | CallSet ora :: rest => last_Set rest ora
  end.

(** What the [Get]s among [cs] return when the store holds [d] at first. *)
Fixpoint Get_results (cs : list StoreCall)
  (d : autodetect.OpenShiftRoutesAvailability) :
  list autodetect.OpenShiftRoutesAvailability :=
  match cs with
  | [] => []
  | CallGet :: rest => d :: Get_results rest d
  | CallSet ora :: rest => Get_results rest ora
  end.

(** ** Package config: the change handler *)

Section ChangeHandler.

Context {Env : Type}.

(** A registered callback, [func() error]: whatever it does, it does to
    the environment, and it reports a nil or non-nil error. *)
Definition Callback : Type := Env -> option error * Env.

(** Modelled from the spec: the implementation of the interface
    [changeHandler] (its constructor [newOnChange] and its methods
    [Register] and [Do]) is not in main.go. The spec describes it as a
    registry holding an ordered collection of callbacks. *)
Record onChange : Type := { callbacks : list Callback }.

(** Modelled from the spec: [newOnChange] is not in main.go; the registry
    starts with zero callbacks. *)
Definition newOnChange : onChange := {| callbacks := [] |}.

(** Modelled from the spec: [Register] is not in main.go; it appends the
    callback to the ordered collection. *)
Definition Register (f : Callback) (o : onChange) : onChange :=
  {| callbacks := callbacks o ++ [f] |}.

End ChangeHandler.

Arguments Callback Env : clear implicits.
Arguments onChange Env : clear implicits.

(** ** Package config: Config, options and New *)

Section Config.

Context {Env : Type}.

(** The struct [Config]. A nil [autoDetect] is [None]. *)
Record Config : Type := {
  autoDetect : option (autodetect.AutoDetect.t Env);
  logger : logr.Logger;
  autoInstrumentationPythonImage : string;
  autoInstrumentationDotNetImage : string;
  autoInstrumentationNodeJSImage : string;
  autoInstrumentationJavaImage : string;
  autoInstrumentationGoImage : string;
  autoInstrumentationPhpImage : string;
  autoInstrumentationRubyImage : string;
  onOpenShiftRoutesChange : onChange Env;
  labelsFilter : list string;
  openshiftRoutes : openshiftRoutesWrapper;
  autoDetectFrequency : time.Duration;
  autoscalingVersion : autodetect.AutoscalingVersion
}.

Definition set_openshiftRoutes (p : openshiftRoutesWrapper) (c : Config) :
  Config :=
  {| autoDetect := autoDetect c;
     logger := logger c;
     autoInstrumentationPythonImage := autoInstrumentationPythonImage c;
     autoInstrumentationDotNetImage := autoInstrumentationDotNetImage c;
     autoInstrumentationNodeJSImage := autoInstrumentationNodeJSImage c;
     autoInstrumentationJavaImage := autoInstrumentationJavaImage c;
     autoInstrumentationGoImage := autoInstrumentationGoImage c;
     autoInstrumentationPhpImage := autoInstrumentationPhpImage c;
     autoInstrumentationRubyImage := autoInstrumentationRubyImage c;
     onOpenShiftRoutesChange := onOpenShiftRoutesChange c;
     labelsFilter := labelsFilter c;
     openshiftRoutes := p;
     autoDetectFrequency := autoDetectFrequency c;
     autoscalingVersion := autoscalingVersion c |}.

Definition set_autoscalingVersion (v : autodetect.AutoscalingVersion)
  (c : Config) : Config :=
  {| autoDetect := autoDetect c;
     logger := logger c;
     autoInstrumentationPythonImage := autoInstrumentationPythonImage c;
     autoInstrumentationDotNetImage := autoInstrumentationDotNetImage c;
     autoInstrumentationNodeJSImage := autoInstrumentationNodeJSImage c;
     autoInstrumentationJavaImage := autoInstrumentationJavaImage c;
     autoInstrumentationGoImage := autoInstrumentationGoImage c;
     autoInstrumentationPhpImage := autoInstrumentationPhpImage c;
     autoInstrumentationRubyImage := autoInstrumentationRubyImage c;
     onOpenShiftRoutesChange := onOpenShiftRoutesChange c;
     labelsFilter := labelsFilter c;
     openshiftRoutes := openshiftRoutes c;
     autoDetectFrequency := autoDetectFrequency c;
     autoscalingVersion := v |}.

Definition set_onOpenShiftRoutesChange (o : onChange Env) (c : Config) :
  Config :=
  {| autoDetect := autoDetect c;
     logger := logger c;
     autoInstrumentationPythonImage := autoInstrumentationPythonImage c;
     autoInstrumentationDotNetImage := autoInstrumentationDotNetImage c;
     autoInstrumentationNodeJSImage := autoInstrumentationNodeJSImage c;
     autoInstrumentationJavaImage := autoInstrumentationJavaImage c;
     autoInstrumentationGoImage := autoInstrumentationGoImage c;
     autoInstrumentationPhpImage := autoInstrumentationPhpImage c;
     autoInstrumentationRubyImage := autoInstrumentationRubyImage c;
     onOpenShiftRoutesChange := o;
     labelsFilter := labelsFilter c;
     openshiftRoutes := openshiftRoutes c;
     autoDetectFrequency := autoDetectFrequency c;
     autoscalingVersion := autoscalingVersion c |}.

Definition defaultAutoDetectFrequency : time.Duration :=
  (5 * time.Second)%Z.

(** The value [version.Get()] returns and the constant
    [autodetect.DefaultAutoscalingVersion] are declared outside main.go. *)
Context {Version : Type}.
Variable version_Get : Version.
Variable DefaultAutoscalingVersion : autodetect.AutoscalingVersion.

(** The struct [options], with the fields [New] fills in and reads;
    each field carries the prefix [o_] to keep it apart from the field
    of [Config] of the same name. *)
Record options : Type := {
  o_autoDetect : option (autodetect.AutoDetect.t Env);
  o_version : Version;
  o_logger : logr.Logger;
  o_autoInstrumentationPythonImage : string;
  o_autoInstrumentationDotNetImage : string;
  o_autoInstrumentationNodeJSImage : string;
  o_autoInstrumentationJavaImage : string;
  o_autoInstrumentationGoImage : string;
  o_autoInstrumentationPhpImage : string;
  o_autoInstrumentationRubyImage : string;
  o_onOpenShiftRoutesChange : onChange Env;
  o_labelsFilter : list string;
  o_openshiftRoutes : openshiftRoutesWrapper;
  o_autoDetectFrequency : time.Duration;
  o_autoscalingVersion : autodetect.AutoscalingVersion
}.

(** An [Option] is a function that takes a pointer to the options and
    updates them in place. *)
Definition Option : Type := options -> options.

(** The options [New] starts from; the fields its literal leaves out
    have Go's zero values. *)
Definition default_options : options :=
  {| o_autoDetect := None;
     o_version := version_Get;
     o_logger := logf.WithName logf.Log "config";
     o_autoInstrumentationPythonImage := "";
     o_autoInstrumentationDotNetImage := "";
     o_autoInstrumentationNodeJSImage := "";
     o_autoInstrumentationJavaImage := "";
     o_autoInstrumentationGoImage := "";
     o_autoInstrumentationPhpImage := "";
     o_autoInstrumentationRubyImage := "";
     o_onOpenShiftRoutesChange := newOnChange;
     o_labelsFilter := [];
     o_openshiftRoutes := newOpenShiftRoutesWrapper;
     o_autoDetectFrequency := defaultAutoDetectFrequency;
     o_autoscalingVersion := DefaultAutoscalingVersion |}.

(** [for _, opt := range opts { opt(&o) }] *)
Definition apply_options (opts : list Option) (o : options) : options :=
  fold_left (fun o opt => opt o) opts o.

Definition New (opts : list Option) : Config :=
  let o := apply_options opts default_options in
  {| autoDetect := o_autoDetect o;
     autoDetectFrequency := o_autoDetectFrequency o;
     logger := o_logger o;
     openshiftRoutes := o_openshiftRoutes o;
     onOpenShiftRoutesChange := o_onOpenShiftRoutesChange o;
     autoInstrumentationJavaImage := o_autoInstrumentationJavaImage o;
     autoInstrumentationNodeJSImage := o_autoInstrumentationNodeJSImage o;
     autoInstrumentationPythonImage := o_autoInstrumentationPythonImage o;
     autoInstrumentationDotNetImage := o_autoInstrumentationDotNetImage o;
     autoInstrumentationPhpImage := o_autoInstrumentationPhpImage o;
     autoInstrumentationRubyImage := o_autoInstrumentationRubyImage o;
     autoInstrumentationGoImage := o_autoInstrumentationGoImage o;
     labelsFilter := o_labelsFilter o;
     autoscalingVersion := o_autoscalingVersion o |}.

(** An option that leaves the detected state as it finds it: it neither
    replaces or writes the store nor sets the autoscaling version. *)
Definition keeps_detected_state (opt : Option) : Prop :=
  forall o : options,
    o_openshiftRoutes (opt o) = o_openshiftRoutes o /\
    o_autoscalingVersion (opt o) = o_autoscalingVersion o.

End Config.

Arguments Config Env : clear implicits.
Arguments options Env Version : clear implicits.
Arguments Option Env Version : clear implicits.

(** ** The world a detection pass runs in *)

(** Goroutines started with a [go] statement. *)
Inductive Goroutine : Type :=
| GoPeriodicAutoDetect.

(** What a pass does to the objects around it, in the order it happens:
    the calls it makes on the probe, on the store and on the change
    handler, the callbacks the handler runs, and the log records. *)
Inductive Event : Type :=
| EvLog (entry : logr.Entry)
| EvOpenShiftRoutesAvailability
    (r : Result autodetect.OpenShiftRoutesAvailability)
| EvHPAVersion (r : Result autodetect.AutoscalingVersion)
| EvGet (ora : autodetect.OpenShiftRoutesAvailability)
| EvSet (ora : autodetect.OpenShiftRoutesAvailability)
| EvDo
| EvCallback (index : nat) (r : option error).

Definition is_EvSet (ev : Event) : bool :=
  match ev with
  | EvSet _ => true
  | _ => false
  end.

Definition is_EvDo (ev : Event) : bool :=
  match ev with
  | EvDo => true
  | _ => false
  end.

Definition is_EvCallback (ev : Event) : bool :=
  match ev with
  | EvCallback _ _ => true
  | _ => false
  end.

Definition is_EvHPAVersion (ev : Event) : bool :=
  match ev with
  | EvHPAVersion _ => true
  | _ => false
  end.

(** The registration indices of the callbacks that ran, in the order in
    which they ran. *)
Fixpoint callbacks_run (evs : list Event) : list nat :=
  match evs with
  | [] => []
  | EvCallback i _ :: rest => i :: callbacks_run rest
  | _ :: rest => callbacks_run rest
  end.

Section Detection.

Context {Env : Type}.

(** The receiver [c *Config], the environment the probe and the
    callbacks act on, the history of the run and the goroutines started
    so far. *)
Record World : Type := {
  config : Config Env;
  env : Env;
  trace : list Event;
  goroutines : list Goroutine
}.

Definition set_config (c : Config Env) (w : World) : World :=
  {| config := c; env := env w; trace := trace w;
     goroutines := goroutines w |}.

Definition set_env (e : Env) (w : World) : World :=
  {| config := config w; env := e; trace := trace w;
     goroutines := goroutines w |}.

Definition emit (ev : Event) : Go World unit :=
  modify (fun w =>
    {| config := config w; env := env w; trace := trace w ++ [ev];
       goroutines := goroutines w |}).

(** The statement [go g]. *)
Definition go (g : Goroutine) : Go World unit :=
  modify (fun w =>
    {| config := config w; env := env w; trace := trace w;
       goroutines := goroutines w ++ [g] |}).

(** [c.logger.V(level).Info(msg, keysAndValues...)] *)
Definition logger_V_Info (level : nat) (msg : string)
  (keysAndValues : list (string * logr.Value)) : Go World unit :=
  l <- gets (fun w => logger (config w)) ;;
  emit (EvLog (logr.InfoEntry (logr.name l) level msg keysAndValues)).

(** [c.logger.Info(msg, keysAndValues...)] *)
Definition logger_Info (msg : string)
  (keysAndValues : list (string * logr.Value)) : Go World unit :=
  logger_V_Info 0 msg keysAndValues.

(** [c.logger.Error(err, msg)] *)
Definition logger_Error (err : error) (msg : string) : Go World unit :=
  l <- gets (fun w => logger (config w)) ;;
  emit (EvLog (logr.ErrorEntry (logr.name l) err msg [])).

(** [c.autoDetect.OpenShiftRoutesAvailability()]; a call through a nil
    interface panics. *)
Definition autoDetect_OpenShiftRoutesAvailability :
  Go World (Result autodetect.OpenShiftRoutesAvailability) :=
  ad <- gets (fun w => autoDetect (config w)) ;;
  match ad with
  | None => panic
  | Some ad =>
      r <- zoom env set_env
             (fun e =>
                Done (autodetect.AutoDetect.OpenShiftRoutesAvailability ad e)) ;;
      emit (EvOpenShiftRoutesAvailability r) ;;
      ret r
  end.

(** [c.autoDetect.HPAVersion()] *)
Definition autoDetect_HPAVersion :
  Go World (Result autodetect.AutoscalingVersion) :=
  ad <- gets (fun w => autoDetect (config w)) ;;
  match ad with
  | None => panic
  | Some ad =>
      r <- zoom env set_env
             (fun e => Done (autodetect.AutoDetect.HPAVersion ad e)) ;;
      emit (EvHPAVersion r) ;;
      ret r
  end.

Definition on_openshiftRoutes {A : Type} (m : Go openshiftRoutesWrapper A) :
  Go World A :=
  zoom (fun w => openshiftRoutes (config w))
       (fun p w => set_config (set_openshiftRoutes p (config w)) w) m.

(** [c.openshiftRoutes.Get()] *)
Definition openshiftRoutes_Get :
  Go World autodetect.OpenShiftRoutesAvailability :=
  ora <- on_openshiftRoutes Get ;;
  emit (EvGet ora) ;;
  ret ora.

(** [c.openshiftRoutes.Set(ora)] *)
Definition openshiftRoutes_Set (ora : autodetect.OpenShiftRoutesAvailability) :
  Go World unit :=
  on_openshiftRoutes (Set_ ora) ;;
  emit (EvSet ora).

(** One callback is called: it acts on the environment and its error
    comes back. *)
Definition call_callback (index : nat) (f : Callback Env) :
  Go World (option error) :=
  err <- zoom env set_env (fun e => Done (f e)) ;;
  emit (EvCallback index err) ;;
  ret err.

(** Modelled from the spec: the body of [Do] is not in main.go. It calls
    every registered callback in registration order; a callback that
    fails does not stop the remaining ones; the error returned is the
    first one met, nil when every callback succeeded. *)
Fixpoint call_each (index : nat) (fs : list (Callback Env)) :
  Go World (option error) :=
  match fs with
  | [] => ret None
  | f :: rest =>
      err <- call_callback index f ;;
      err' <- call_each (S index) rest ;;
      ret (match err with
           | Some e => Some e
           | None => err'
           end)
  end.

(** Modelled from the spec: method [Do] of the change handler, which is
    not in main.go (see [call_each]). *)
Definition Do : Go World (option error) :=
  fs <- gets (fun w => callbacks (onOpenShiftRoutesChange (config w))) ;;
  call_each 0 fs.

(** [c.onOpenShiftRoutesChange.Do()] *)
Definition onOpenShiftRoutesChange_Do : Go World (option error) :=
  emit EvDo ;;
  Do.

(** [AutoDetect] attempts to automatically detect relevant information
    for this operator. The result is the error returned, [None] for nil. *)
Definition AutoDetect : Go World (option error) :=
  logger_V_Info 2
    "auto-detecting the configuration based on the environment" [] ;;
  r <- autoDetect_OpenShiftRoutesAvailability ;;
  match r with
  | Err err => ret (Some err)
  | Ok ora =>
      cur <- openshiftRoutes_Get ;;
      (if autodetect.OpenShiftRoutesAvailability_eq_dec cur ora
       then ret tt
       else
         logger_V_Info 1 "openshift routes detected"
           [("available", logr.VAvailability ora)] ;;
         openshiftRoutes_Set ora ;;
         err <- onOpenShiftRoutesChange_Do ;;
         match err with
         | Some err =>
             logger_Error err
               "configuration change notification failed for callback"
         | None => ret tt
         end) ;;
      r' <- autoDetect_HPAVersion ;;
      match r' with
      | Err err => ret (Some err)
      | Ok hpaVersion =>
          modify (fun w =>
            set_config (set_autoscalingVersion hpaVersion (config w)) w) ;;
          v <- gets (fun w => autoscalingVersion (config w)) ;;
          logger_V_Info 2 "autoscaling version detected"
            [("autoscaling-version", logr.VStringOf v)] ;;
          ret None
      end
  end.

(** [time.NewTicker(d)] panics unless [d] is positive; after that the
    ticker delivers ticks for ever. *)
Definition time_NewTicker (d : time.Duration) : Go World unit :=
  if (0 <? d)%Z then ret tt else panic.

(** The first [ticks] rounds of [for range ticker.C]. *)
Fixpoint periodicAutoDetect_loop (ticks : nat) : Go World unit :=
  match ticks with
  | O => ret tt
  | S n =>
      err <- AutoDetect ;;
      match err with
      | Some err =>
          logger_Info "auto-detection failed" [("error", logr.VError err)]
      | None => ret tt
      end ;;
      periodicAutoDetect_loop n
  end.

(** [periodicAutoDetect], observed until its ticker has ticked [ticks]
    times. *)
Definition periodicAutoDetect (ticks : nat) : Go World unit :=
  d <- gets (fun w => autoDetectFrequency (config w)) ;;
  time_NewTicker d ;;
  periodicAutoDetect_loop ticks.

(** [StartAutoDetect] blocks until the first run is executed and
    schedules periodic updates. *)
Definition StartAutoDetect : Go World (option error) :=
  err <- AutoDetect ;;
  go GoPeriodicAutoDetect ;;
  ret err.

(** [OpenShiftRoutes] represents the availability of the OpenShift
    Routes API. *)
Definition OpenShiftRoutes : Go World autodetect.OpenShiftRoutesAvailability :=
  openshiftRoutes_Get.

(** [AutoscalingVersion] represents the preferred version of
    autoscaling. *)
Definition AutoscalingVersion (c : Config Env) :
  autodetect.AutoscalingVersion :=
  autoscalingVersion c.

(** [RegisterOpenShiftRoutesChangeCallback] registers the given function
    as a callback that is called when the detection detects a change. *)
Definition RegisterOpenShiftRoutesChangeCallback (f : Callback Env)
  (c : Config Env) : Config Env :=
  set_onOpenShiftRoutesChange (Register f (onOpenShiftRoutesChange c)) c.

End Detection.

Arguments World Env : clear implicits.

(** ** What a round of callbacks amounts to *)

Section Rounds.

Context {Env : Type}.

(** The environment after the callbacks [fs] ran one after the other. *)
Definition callbacks_env (fs : list (Callback Env)) (e : Env) : Env :=
  fold_left (fun e f => snd (f e)) fs e.

(** The events of that round, the first callback having index [index]. *)
Fixpoint callback_events (index : nat) (fs : list (Callback Env)) (e : Env) :
  list Event :=
  match fs with
  | [] => []
  | f :: rest =>
      EvCallback index (fst (f e)) :: callback_events (S index) rest (snd (f e))
  end.

(** The first error of that round. *)
Fixpoint callbacks_error (fs : list (Callback Env)) (e : Env) : option error :=
  match fs with
  | [] => None
  | f :: rest =>
      match fst (f e) with
      | Some err => Some err
      | None => callbacks_error rest (snd (f e))
      end
  end.

(** A pass can run on [w]: a probe [ad] is configured and nobody holds
    the mutex of the store. *)
Definition Ready (ad : autodetect.AutoDetect.t Env) (w : World Env) : Prop :=
  autoDetect (config w) = Some ad /\
  sync.locked (mu (openshiftRoutes (config w))) = false.

(** The world [w] with the events [evs] added to its history. *)
Definition record (evs : list Event) (w : World Env) : World Env :=
  {| config := config w; env := env w; trace := trace w ++ evs;
     goroutines := goroutines w |}.

(** The log records of a pass. *)
Definition entry_detecting (c : Config Env) : Event :=
  EvLog (logr.InfoEntry (logr.name (logger c)) 2
    "auto-detecting the configuration based on the environment" []).

Definition entry_routes_detected (c : Config Env)
  (ora : autodetect.OpenShiftRoutesAvailability) : Event :=
  EvLog (logr.InfoEntry (logr.name (logger c)) 1
    "openshift routes detected" [("available", logr.VAvailability ora)]).

Definition entry_notification_failed (c : Config Env) (err : error) : Event :=
  EvLog (logr.ErrorEntry (logr.name (logger c)) err
    "configuration change notification failed for callback" []).

Definition entry_version_detected (c : Config Env)
  (v : autodetect.AutoscalingVersion) : Event :=
  EvLog (logr.InfoEntry (logr.name (logger c)) 2
    "autoscaling version detected"
    [("autoscaling-version", logr.VStringOf v)]).

(** The events of the branch of [AutoDetect] that stores a new
    availability [ora] and notifies, from the log record to the end of
    the branch; [e] is the environment the callbacks start in. *)
Definition change_events (c : Config Env)
  (ora : autodetect.OpenShiftRoutesAvailability) (e : Env) : list Event :=
  let fs := callbacks (onOpenShiftRoutesChange c) in
  [entry_routes_detected c ora; EvSet ora; EvDo]
  ++ callback_events 0 fs e
  ++ match callbacks_error fs e with
     | Some err => [entry_notification_failed c err]
     | None => []
     end.

(** The configuration once [ora] is stored. *)
Definition stored (ora : autodetect.OpenShiftRoutesAvailability)
  (c : Config Env) : Config Env :=
  set_openshiftRoutes (set_current ora (openshiftRoutes c)) c.

(** The last stage of a pass, given what [HPAVersion] returned: the
    error of the pass, the configuration it leaves and its events. *)
Definition version_error (r : Result autodetect.AutoscalingVersion) :
  option error :=
  match r with
  | Ok _ => None
  | Err err => Some err
  end.

Definition versioned (r : Result autodetect.AutoscalingVersion)
  (c : Config Env) : Config Env :=
  match r with
  | Ok v => set_autoscalingVersion v c
  | Err _ => c
  end.

Definition version_events (c : Config Env)
  (r : Result autodetect.AutoscalingVersion) : list Event :=
  EvHPAVersion r ::
  match r with
  | Ok v => [entry_version_detected c v]
  | Err _ => []
  end.

(** The world a pass leaves: configuration [c], environment [e], and
    the events [evs] added to the history of [w]. *)
Definition after_pass (c : Config Env) (e : Env) (evs : list Event)
  (w : World Env) : World Env :=
  {| config := c; env := e; trace := trace w ++ evs;
     goroutines := goroutines w |}.

End Rounds.

(** The calls made on the probe, in order. *)
Definition is_probe_call (ev : Event) : bool :=
  match ev with
  | EvOpenShiftRoutesAvailability _ => true
  | EvHPAVersion _ => true
  | _ => false
  end.

Definition probe_calls (evs : list Event) : list Event :=
  filter is_probe_call evs.

(** Events that touch the store or the change handler. *)
Definition is_change_event (ev : Event) : bool :=
  is_EvSet ev || is_EvDo ev || is_EvCallback ev.

(** ** A cluster to run the operator in *)

Module Scenario.

(** What the two discovery queries answer at the moment, and a journal
    of what the callbacks did. *)
Record Cluster : Type := {
  routes_api : Result autodetect.OpenShiftRoutesAvailability;
  hpa_api : Result autodetect.AutoscalingVersion;
  journal : list string
}.

Definition probe : autodetect.AutoDetect.t Cluster :=
  {| autodetect.AutoDetect.OpenShiftRoutesAvailability :=
       fun k => (routes_api k, k);
     autodetect.AutoDetect.HPAVersion :=
       fun k => (hpa_api k, k) |}.

Definition write (s : string) (k : Cluster) : Cluster :=
  {| routes_api := routes_api k; hpa_api := hpa_api k;
     journal := journal k ++ [s] |}.

(** A callback that succeeds and one that fails; both leave a line in
    the journal. *)
Definition succeeding (s : string) : Callback Cluster :=
  fun k => (None, write s k).

Definition failing (s : string) : Callback Cluster :=
  fun k => (Some s, write s k).

(** An option that configures the probe. *)
Definition with_autoDetect (ad : autodetect.AutoDetect.t Cluster) :
  Option Cluster string :=
  fun o =>
    {| o_autoDetect := Some ad;
       o_version := o_version o;
       o_logger := o_logger o;
       o_autoInstrumentationPythonImage := o_autoInstrumentationPythonImage o;
       o_autoInstrumentationDotNetImage := o_autoInstrumentationDotNetImage o;
       o_autoInstrumentationNodeJSImage := o_autoInstrumentationNodeJSImage o;
       o_autoInstrumentationJavaImage := o_autoInstrumentationJavaImage o;
       o_autoInstrumentationGoImage := o_autoInstrumentationGoImage o;
       o_autoInstrumentationPhpImage := o_autoInstrumentationPhpImage o;
       o_autoInstrumentationRubyImage := o_autoInstrumentationRubyImage o;
       o_onOpenShiftRoutesChange := o_onOpenShiftRoutesChange o;
       o_labelsFilter := o_labelsFilter o;
       o_openshiftRoutes := o_openshiftRoutes o;
       o_autoDetectFrequency := o_autoDetectFrequency o;
       o_autoscalingVersion := o_autoscalingVersion o |}.

(** A configuration with the probe and three callbacks, the second of
    which fails. *)
Definition fresh : Config Cluster :=
  New "v0" autodetect.AutoscalingVersionV2 [with_autoDetect probe].

Definition operator : Config Cluster :=
  RegisterOpenShiftRoutesChangeCallback (succeeding "third")
    (RegisterOpenShiftRoutesChangeCallback (failing "second")
       (RegisterOpenShiftRoutesChangeCallback (succeeding "first") fresh)).

Definition cluster
  (routes : Result autodetect.OpenShiftRoutesAvailability)
  (hpa : Result autodetect.AutoscalingVersion) : Cluster :=
  {| routes_api := routes; hpa_api := hpa; journal := [] |}.

Definition start (c : Config Cluster) (k : Cluster) : World Cluster :=
  {| config := c; env := k; trace := []; goroutines := [] |}.

(** The routes are there and the autoscaling API is at V1, while the
    operator starts from NotAvailable and V2. *)
Definition upgrade : World Cluster :=
  start operator
    (cluster (Ok autodetect.OpenShiftRoutesAvailable)
       (Ok autodetect.AutoscalingVersionV1)).

(** Nothing new about the routes. *)
Definition steady : World Cluster :=
  start operator
    (cluster (Ok autodetect.OpenShiftRoutesNotAvailable)
       (Ok autodetect.AutoscalingVersionV1)).

(** The routes query fails. *)
Definition routes_down : World Cluster :=
  start operator
    (cluster (Err "routes discovery failed")
       (Ok autodetect.AutoscalingVersionV1)).

(** The routes are there but the autoscaling query fails. *)
Definition hpa_down : World Cluster :=
  start operator
    (cluster (Ok autodetect.OpenShiftRoutesAvailable)
       (Err "autoscaling discovery failed")).

(** What can be seen of a run from outside: the error returned, the two
    detected values, the callbacks that ran and the journal. *)
Definition observe (o : Outcome (option error * World Cluster)) :
  option (option error *
          (autodetect.OpenShiftRoutesAvailability *
           autodetect.AutoscalingVersion * list nat * list string)) :=
  match o with
  | Done (err, w) =>
      Some (err,
            (current (openshiftRoutes (config w)),
             autoscalingVersion (config w),
             callbacks_run (trace w),
             journal (env w)))
  | Blocked => None
  | Panicked => None
  end.

End Scenario.

(** ** Package config: the read accessors *)

Section Accessors.

Context {Env : Type}.

(** [AutoInstrumentationJavaImage] returns New Relic Java
    auto-instrumentation container image. *)
Definition AutoInstrumentationJavaImage (c : Config Env) : string :=
  autoInstrumentationJavaImage c.

(** [AutoInstrumentationNodeJSImage] returns New Relic NodeJS
    auto-instrumentation container image. *)
Definition AutoInstrumentationNodeJSImage (c : Config Env) : string :=
  autoInstrumentationNodeJSImage c.

(** [AutoInstrumentationPythonImage] returns New Relic Python
    auto-instrumentation container image. *)
Definition AutoInstrumentationPythonImage (c : Config Env) : string :=
  autoInstrumentationPythonImage c.

(** [AutoInstrumentationDotNetImage] returns New Relic DotNet
    auto-instrumentation container image. *)
Definition AutoInstrumentationDotNetImage (c : Config Env) : string :=
  autoInstrumentationDotNetImage c.

(** [AutoInstrumentationPhpImage] *)
Definition AutoInstrumentationPhpImage (c : Config Env) : string :=
  autoInstrumentationPhpImage c.

(** [AutoInstrumentationRubyImage] returns New Relic Ruby
    auto-instrumentation container image. *)
Definition AutoInstrumentationRubyImage (c : Config Env) : string :=
  autoInstrumentationRubyImage c.

(** [AutoInstrumentationGoImage] returns the Go auto-instrumentation
    container image. *)
Definition AutoInstrumentationGoImage (c : Config Env) : string :=
  autoInstrumentationGoImage c.

(** [LabelsFilter] returns the filters used to filter out unwanted
    labels from propagations. *)
Definition LabelsFilter (c : Config Env) : list string :=
  labelsFilter c.

(** What the eight accessors above return, in the order above. *)
Definition static_settings (c : Config Env) : list string * list string :=
  ([AutoInstrumentationJavaImage c;
    AutoInstrumentationNodeJSImage c;
    AutoInstrumentationPythonImage c;
    AutoInstrumentationDotNetImage c;
    AutoInstrumentationPhpImage c;
    AutoInstrumentationRubyImage c;
    AutoInstrumentationGoImage c],
   LabelsFilter c).

End Accessors.

Section MoreOptions.

Context {Env Version : Type}.

(** An option that does not configure a probe. *)
Definition leaves_autoDetect (opt : Option Env Version) : Prop :=
  forall o : options Env Version, o_autoDetect (opt o) = o_autoDetect o.

End MoreOptions.

(** ** Counting in a history *)

Definition count_events (keep : Event -> bool) (evs : list Event) : nat :=
  List.length (filter keep evs).

Definition is_routes_call (ev : Event) : bool :=
  match ev with
  | EvOpenShiftRoutesAvailability _ => true
  | _ => false
  end.

(** A call on the probe that returned an error. *)
Definition is_failed_probe_call (ev : Event) : bool :=
  match ev with
  | EvOpenShiftRoutesAvailability (Err _) => true
  | EvHPAVersion (Err _) => true
  | _ => false
  end.

(** The record the periodic loop logs for a pass that returned an error. *)
Definition is_failure_log (ev : Event) : bool :=
  match ev with
  | EvLog (logr.InfoEntry _ O msg _) => String.eqb msg "auto-detection failed"
  | _ => false
  end.

Definition is_CallGet (c : StoreCall) : bool :=
  negb (is_CallSet c).

(** ** More clusters and operators *)

Module Cases.

(** The world [w] at a moment when somebody holds the mutex of the
    store. *)
Definition held (w : World Scenario.Cluster) : World Scenario.Cluster :=
  set_config
    (set_openshiftRoutes
       (set_mu {| sync.locked := true |} (openshiftRoutes (config w)))
       (config w))
    w.

(** A probe that gives the same two answers whatever the cluster. *)
Definition always (ora : autodetect.OpenShiftRoutesAvailability)
  (v : autodetect.AutoscalingVersion) :
  autodetect.AutoDetect.t Scenario.Cluster :=
  {| autodetect.AutoDetect.OpenShiftRoutesAvailability :=
       fun k => (Ok ora, k);
     autodetect.AutoDetect.HPAVersion :=
       fun k => (Ok v, k) |}.

(** An option that sets the frequency of the periodic loop. *)
Definition with_autoDetectFrequency (d : time.Duration) :
  Option Scenario.Cluster string :=
  fun o =>
    {| o_autoDetect := o_autoDetect o;
       o_version := o_version o;
       o_logger := o_logger o;
       o_autoInstrumentationPythonImage := o_autoInstrumentationPythonImage o;
       o_autoInstrumentationDotNetImage := o_autoInstrumentationDotNetImage o;
       o_autoInstrumentationNodeJSImage := o_autoInstrumentationNodeJSImage o;
       o_autoInstrumentationJavaImage := o_autoInstrumentationJavaImage o;
       o_autoInstrumentationGoImage := o_autoInstrumentationGoImage o;
       o_autoInstrumentationPhpImage := o_autoInstrumentationPhpImage o;
       o_autoInstrumentationRubyImage := o_autoInstrumentationRubyImage o;
       o_onOpenShiftRoutesChange := o_onOpenShiftRoutesChange o;
       o_labelsFilter := o_labelsFilter o;
       o_openshiftRoutes := o_openshiftRoutes o;
       o_autoDetectFrequency := d;
       o_autoscalingVersion := o_autoscalingVersion o |}.

(** An operator whose probe always finds the routes and V1, with one
    callback. *)
Definition settled : World Scenario.Cluster :=
  Scenario.start
    (RegisterOpenShiftRoutesChangeCallback (Scenario.succeeding "changed")
       (New "v0" autodetect.AutoscalingVersionV2
          [Scenario.with_autoDetect
             (always autodetect.OpenShiftRoutesAvailable
                autodetect.AutoscalingVersionV1)]))
    (Scenario.cluster (Err "unused") (Err "unused")).

(** An operator made without a probe. *)
Definition unprobed : World Scenario.Cluster :=
  Scenario.start
    (New "v0" autodetect.AutoscalingVersionV2
       [with_autoDetectFrequency (2 * time.Second)%Z])
    (Scenario.cluster (Ok autodetect.OpenShiftRoutesAvailable)
       (Ok autodetect.AutoscalingVersionV1)).

(** An operator whose frequency was set to zero. *)
Definition unticking : World Scenario.Cluster :=
  Scenario.start
    (New "v0" autodetect.AutoscalingVersionV2
       [Scenario.with_autoDetect Scenario.probe; with_autoDetectFrequency 0%Z])
    (Scenario.cluster (Ok autodetect.OpenShiftRoutesAvailable)
       (Ok autodetect.AutoscalingVersionV1)).

End Cases.

(** ** Goroutines and what they run *)

Section Goroutines.

Context {Env : Type}.

(** The world once the statement [go c.periodicAutoDetect()] has been
    executed in [w]. *)
Definition started (w : World Env) : World Env :=
  {| config := config w; env := env w; trace := trace w;
     goroutines := goroutines w ++ [GoPeriodicAutoDetect] |}.

(** What a started goroutine runs, observed for [ticks] ticks of its
    ticker. *)
Definition run_goroutine (g : Goroutine) (ticks : nat) : Go (World Env) unit :=
  match g with
  | GoPeriodicAutoDetect => periodicAutoDetect ticks
  end.

End Goroutines.

(** ** Options that write the detected state *)

Module Overriding.

(** An option that writes [ora] to the store the options hold and sets
    the autoscaling version to [v]. *)
Definition with_detected_state
  (ora : autodetect.OpenShiftRoutesAvailability)
  (v : autodetect.AutoscalingVersion) :
  Option Scenario.Cluster string :=
  fun o =>
    {| o_autoDetect := o_autoDetect o;
       o_version := o_version o;
       o_logger := o_logger o;
       o_autoInstrumentationPythonImage := o_autoInstrumentationPythonImage o;
       o_autoInstrumentationDotNetImage := o_autoInstrumentationDotNetImage o;
       o_autoInstrumentationNodeJSImage := o_autoInstrumentationNodeJSImage o;
       o_autoInstrumentationJavaImage := o_autoInstrumentationJavaImage o;
       o_autoInstrumentationGoImage := o_autoInstrumentationGoImage o;
       o_autoInstrumentationPhpImage := o_autoInstrumentationPhpImage o;
       o_autoInstrumentationRubyImage := o_autoInstrumentationRubyImage o;
       o_onOpenShiftRoutesChange := o_onOpenShiftRoutesChange o;
       o_labelsFilter := o_labelsFilter o;
       o_openshiftRoutes := set_current ora (o_openshiftRoutes o);
       o_autoDetectFrequency := o_autoDetectFrequency o;
       o_autoscalingVersion := v |}.

(** The configuration [New] makes with that one option. *)
Definition overridden : Config Scenario.Cluster :=
  New "v0" autodetect.AutoscalingVersionV2
    [with_detected_state autodetect.OpenShiftRoutesAvailable
       autodetect.AutoscalingVersionV1].

End Overriding.

(** * Properties *)

(** ** The store *)

Lemma Get_free (p : openshiftRoutesWrapper) :
  sync.locked (mu p) = false -> Get p = Done (current p, p).
Proof.
  destruct p as [[l] cur]; simpl; intros ->. reflexivity.
Qed.

Lemma Set_free (ora : autodetect.OpenShiftRoutesAvailability)
  (p : openshiftRoutesWrapper) :
  sync.locked (mu p) = false -> Set_ ora p = Done (tt, set_current ora p).
Proof.
  destruct p as [[l] cur]; simpl; intros ->. reflexivity.
Qed.

(** A call on a store whose mutex is held never returns. *)
Lemma Get_held (p : openshiftRoutesWrapper) :
  sync.locked (mu p) = true -> Get p = Blocked.
Proof.
  destruct p as [[l] cur]; simpl; intros ->. reflexivity.
Qed.

Lemma Set_held (ora : autodetect.OpenShiftRoutesAvailability)
  (p : openshiftRoutesWrapper) :
  sync.locked (mu p) = true -> Set_ ora p = Blocked.
Proof.
  destruct p as [[l] cur]; simpl; intros ->. reflexivity.
Qed.

(** Any sequence of calls on a free store runs to its end, leaves the
    mutex free and the last value set in the store. *)
Lemma run_calls_free (cs : list StoreCall) :
  forall p : openshiftRoutesWrapper,
    sync.locked (mu p) = false ->
    run_calls cs p =
    Done (Get_results cs (current p),
          set_current (last_Set cs (current p)) p).
Proof.
  induction cs as [|[|ora] rest IH]; intros p Hp.
  - destruct p as [m cur]. reflexivity.
  - cbn [run_calls Get_results last_Set]. unfold bind at 1.
    rewrite Get_free by assumption. unfold bind at 1.
    rewrite IH by assumption. reflexivity.
  - cbn [run_calls Get_results last_Set]. unfold bind at 1.
    rewrite Set_free by assumption.
    rewrite IH by (destruct p; assumption).
    destruct p; reflexivity.
Qed.

Lemma last_Set_no_Set (cs : list StoreCall)
  (d : autodetect.OpenShiftRoutesAvailability) :
  existsb is_CallSet cs = false -> last_Set cs d = d.
Proof.
  induction cs as [|[|ora] rest IH]; cbn; intros H;
    [reflexivity | auto | discriminate].
Qed.

(** A [Get] returns the argument of the last [Set] before it. *)
Lemma Get_returns_last_Set (cs : list StoreCall) (p : openshiftRoutesWrapper) :
  sync.locked (mu p) = false ->
  (run_calls cs ;; Get) p =
  Done (last_Set cs (current p), set_current (last_Set cs (current p)) p).
Proof.
  intros Hp. unfold bind. rewrite run_calls_free by assumption.
  rewrite Get_free by (destruct p; assumption). reflexivity.
Qed.

(** C9. A [Get] that follows a completed [Set v], with any number of
    [Get]s but no other [Set] in between, returns exactly [v]; the calls
    all return, and the store is left holding [v] with its mutex free. *)
Theorem Get_after_Set_returns_the_value_set
  (v : autodetect.OpenShiftRoutesAvailability)
  (between : list StoreCall) (p : openshiftRoutesWrapper) :
  sync.locked (mu p) = false ->
  existsb is_CallSet between = false ->
  (Set_ v ;; run_calls between ;; Get) p = Done (v, set_current v p).
Proof.
  intros Hp Hnone. unfold bind at 1. rewrite Set_free by assumption.
  rewrite Get_returns_last_Set by (destruct p; assumption).
  rewrite last_Set_no_Set by assumption.
  destruct p; reflexivity.
Qed.

(** The accessor [OpenShiftRoutes] reads the store and leaves the
    configuration as it was. *)
Lemma OpenShiftRoutes_free {Env : Type} (w : World Env) :
  sync.locked (mu (openshiftRoutes (config w))) = false ->
  OpenShiftRoutes w =
  Done (current (openshiftRoutes (config w)),
        record [EvGet (current (openshiftRoutes (config w)))] w).
Proof.
  destruct w as [c e t g]. destruct c. cbn. intros Hfree.
  unfold OpenShiftRoutes, openshiftRoutes_Get, on_openshiftRoutes,
    bind, zoom, emit, modify, ret. cbn.
  rewrite Get_free by assumption. reflexivity.
Qed.

(** ** New *)

Section NewProperties.

Context {Env Version : Type}.
Variable version_Get : Version.
Variable DefaultAutoscalingVersion : autodetect.AutoscalingVersion.

Lemma apply_options_keep (opts : list (Option Env Version)) :
  Forall keeps_detected_state opts ->
  forall o : options Env Version,
    o_openshiftRoutes (apply_options opts o) = o_openshiftRoutes o /\
    o_autoscalingVersion (apply_options opts o) = o_autoscalingVersion o.
Proof.
  induction 1 as [|opt rest Hopt _ IH]; intros o.
  - split; reflexivity.
  - change (apply_options (opt :: rest) o)
      with (apply_options rest (opt o)).
    destruct (IH (opt o)) as [-> ->]. apply Hopt.
Qed.

(** C8. A [Config] freshly constructed by [New] - with no options, or
    with options that do not themselves write the detected state -
    holds [OpenShiftRoutesNotAvailable] in a store whose mutex is free,
    so that [OpenShiftRoutes] returns [OpenShiftRoutesNotAvailable]
    before any pass has run, and [AutoscalingVersion] returns
    [DefaultAutoscalingVersion]. *)
Theorem New_starts_NotAvailable_with_default_version
  (opts : list (Option Env Version)) :
  Forall keeps_detected_state opts ->
  let c := New version_Get DefaultAutoscalingVersion opts in
  openshiftRoutes c = newOpenShiftRoutesWrapper /\
  (forall w : World Env,
     config w = c ->
     exists w',
       OpenShiftRoutes w = Done (autodetect.OpenShiftRoutesNotAvailable, w') /\
       config w' = c) /\
  AutoscalingVersion c = DefaultAutoscalingVersion.
Proof.
  intros Hkeep c.
  destruct (apply_options_keep opts Hkeep
              (default_options version_Get DefaultAutoscalingVersion))
    as [Hstore Hversion].
  assert (Hc : openshiftRoutes c = newOpenShiftRoutesWrapper) by exact Hstore.
  split; [exact Hc|]. split; [|exact Hversion].
  intros w Hw.
  rewrite OpenShiftRoutes_free by (rewrite Hw, Hc; reflexivity).
  rewrite Hw, Hc. eexists. split; [reflexivity|]. exact Hw.
Qed.

End NewProperties.

(** ** The rounds of callbacks *)

Section RoundProperties.

Context {Env : Type}.

Lemma call_each_run (fs : list (Callback Env)) :
  forall (index : nat) (w : World Env),
    call_each index fs w =
    Done (callbacks_error fs (env w),
          record (callback_events index fs (env w))
            (set_env (callbacks_env fs (env w)) w)).
Proof.
  induction fs as [|f rest IH]; intros index w.
  - destruct w; unfold record, set_env; simpl. rewrite app_nil_r. reflexivity.
  - cbn [call_each]. unfold bind at 1. unfold call_callback.
    unfold bind, zoom, emit, modify, ret. cbn.
    destruct (f (env w)) as [r e'] eqn:Hf. cbn.
    rewrite IH. cbn.
    unfold record, set_env; cbn. rewrite <- app_assoc. cbn.
    destruct r; reflexivity.
Qed.

(** Every callback runs exactly once, in registration order. *)
Lemma callbacks_run_callback_events (fs : list (Callback Env)) :
  forall (index : nat) (e : Env),
    callbacks_run (callback_events index fs e) = seq index (List.length fs).
Proof.
  induction fs as [|f rest IH]; intros index e; cbn.
  - reflexivity.
  - rewrite IH. reflexivity.
Qed.

Lemma callbacks_run_app (evs evs' : list Event) :
  callbacks_run (evs ++ evs') = callbacks_run evs ++ callbacks_run evs'.
Proof.
  induction evs as [|ev rest IH]; cbn; [reflexivity|].
  destruct ev; cbn; rewrite IH; reflexivity.
Qed.

(** The callback registered at position [j] is called in the
    environment its predecessors left, whatever they returned. *)
Lemma callback_events_nth (fs : list (Callback Env)) :
  forall (index : nat) (e : Env) (j : nat) (f : Callback Env),
    nth_error fs j = Some f ->
    In (EvCallback (index + j) (fst (f (callbacks_env (firstn j fs) e))))
       (callback_events index fs e).
Proof.
  induction fs as [|g rest IH]; intros index e j f Hj.
  - destruct j; discriminate.
  - destruct j as [|j]; cbn in Hj.
    + injection Hj as ->. rewrite Nat.add_0_r. left. reflexivity.
    + right. cbn [firstn callbacks_env fold_left].
      replace (index + S j) with (S index + j) by lia.
      apply (IH (S index) (snd (g e)) j f Hj).
Qed.

Lemma filter_callback_events (keep : Event -> bool)
  (fs : list (Callback Env)) :
  (forall i r, keep (EvCallback i r) = false) ->
  forall (index : nat) (e : Env),
    filter keep (callback_events index fs e) = [].
Proof.
  intros Hkeep. induction fs as [|f rest IH]; intros index e; cbn.
  - reflexivity.
  - rewrite Hkeep. apply IH.
Qed.


(** A round in which some callback fails has an error to report. *)
Lemma callbacks_error_of_failure (fs : list (Callback Env)) :
  forall (e : Env) (i : nat) (g : Callback Env) (err : error),
    nth_error fs i = Some g ->
    fst (g (callbacks_env (firstn i fs) e)) = Some err ->
    exists first, callbacks_error fs e = Some first.
Proof.
  induction fs as [|f rest IH]; intros e i g err Hi Hg.
  - destruct i; discriminate.
  - cbn. destruct (fst (f e)) as [ferr|] eqn:Hf; [eauto|].
    destruct i as [|i]; cbn in Hi.
    + injection Hi as ->. cbn in Hg. congruence.
    + exact (IH (snd (f e)) i g err Hi Hg).
Qed.

End RoundProperties.

(** ** The three ways through a pass *)

Section Paths.

Context {Env : Type}.
Variable ad : autodetect.AutoDetect.t Env.

Ltac run_pass :=
  unfold AutoDetect, logger_V_Info, logger_Error,
    autoDetect_OpenShiftRoutesAvailability, autoDetect_HPAVersion,
    openshiftRoutes_Get, openshiftRoutes_Set, on_openshiftRoutes,
    onOpenShiftRoutesChange_Do, Do, emit, modify, gets, zoom, bind, ret;
  cbn.

(** The routes probe fails: the pass ends there. *)
Lemma AutoDetect_routes_failed (w : World Env) (err : error) (e1 : Env) :
  Ready ad w ->
  autodetect.AutoDetect.OpenShiftRoutesAvailability ad (env w) = (Err err, e1) ->
  AutoDetect w =
  Done (Some err,
        after_pass (config w) e1
          [entry_detecting (config w);
           EvOpenShiftRoutesAvailability (Err err)] w).
Proof.
  destruct w as [c e t g]. intros [Had Hfree] Hroutes. cbn in *.
  run_pass. rewrite Had. cbn. rewrite Hroutes. cbn.
  unfold after_pass. cbn. rewrite <- app_assoc. reflexivity.
Qed.

(** The routes probe returns what the store holds: nothing is stored,
    nobody is notified, and the pass goes on to the autoscaling probe. *)
Lemma AutoDetect_steady (w : World Env) (e1 : Env)
  (r : Result autodetect.AutoscalingVersion) (e2 : Env) :
  Ready ad w ->
  autodetect.AutoDetect.OpenShiftRoutesAvailability ad (env w) =
    (Ok (current (openshiftRoutes (config w))), e1) ->
  autodetect.AutoDetect.HPAVersion ad e1 = (r, e2) ->
  AutoDetect w =
  Done (version_error r,
        after_pass (versioned r (config w)) e2
          ([entry_detecting (config w);
            EvOpenShiftRoutesAvailability
              (Ok (current (openshiftRoutes (config w))));
            EvGet (current (openshiftRoutes (config w)))]
           ++ version_events (config w) r) w).
Proof.
  destruct w as [c e t g]. destruct c. intros [Had Hfree] Hroutes Hhpa.
  cbn in *. subst.
  run_pass. rewrite Hroutes. cbn. rewrite Get_free by assumption. cbn.
  destruct (autodetect.OpenShiftRoutesAvailability_eq_dec _ _) as [_|Hne];
    [|contradiction Hne; reflexivity].
  cbn. rewrite Hhpa. cbn.
  unfold after_pass. cbn.
  destruct r as [v|err]; cbn; repeat rewrite <- app_assoc; reflexivity.
Qed.

(** The routes probe returns something else: the new value is stored,
    the change handler runs, and the pass goes on to the autoscaling
    probe in the environment the callbacks left. *)
Lemma AutoDetect_changed (w : World Env)
  (ora : autodetect.OpenShiftRoutesAvailability) (e1 : Env)
  (r : Result autodetect.AutoscalingVersion) (e2 : Env) :
  Ready ad w ->
  autodetect.AutoDetect.OpenShiftRoutesAvailability ad (env w) = (Ok ora, e1) ->
  current (openshiftRoutes (config w)) <> ora ->
  autodetect.AutoDetect.HPAVersion ad
    (callbacks_env (callbacks (onOpenShiftRoutesChange (config w))) e1) =
    (r, e2) ->
  AutoDetect w =
  Done (version_error r,
        after_pass (versioned r (stored ora (config w))) e2
          ([entry_detecting (config w);
            EvOpenShiftRoutesAvailability (Ok ora);
            EvGet (current (openshiftRoutes (config w)))]
           ++ change_events (config w) ora e1
           ++ version_events (config w) r) w).
Proof.
  destruct w as [c e t g]. destruct c. intros [Had Hfree] Hroutes Hne Hhpa.
  cbn in *. subst.
  run_pass. rewrite Hroutes. cbn. rewrite Get_free by assumption. cbn.
  destruct (autodetect.OpenShiftRoutesAvailability_eq_dec _ _) as [Heq|_];
    [contradiction|].
  cbn. rewrite Set_free by assumption. cbn.
  rewrite call_each_run. cbn.
  unfold after_pass, change_events, stored. cbn.
  destruct (callbacks_error _ e1) as [cberr|]; cbn; rewrite Hhpa; cbn;
    destruct r as [v|err]; cbn; repeat rewrite <- app_assoc; cbn;
    reflexivity.
Qed.

End Paths.

(** ** When a pass can run *)

Section Readiness.

Context {Env : Type}.

(** Without a probe the first call of the pass goes through a nil
    interface. *)
Lemma AutoDetect_without_probe_panics (w : World Env) :
  autoDetect (config w) = None -> AutoDetect w = Panicked.
Proof.
  intros Hnil.
  unfold AutoDetect, logger_V_Info, autoDetect_OpenShiftRoutesAvailability,
    emit, modify, gets, bind. cbn. rewrite Hnil. reflexivity.
Qed.

(** While somebody holds the mutex of the store, a pass whose routes
    call succeeds waits in [Get]. *)
Lemma AutoDetect_waits_for_the_store (ad : autodetect.AutoDetect.t Env)
  (w : World Env) (ora : autodetect.OpenShiftRoutesAvailability) (e1 : Env) :
  autoDetect (config w) = Some ad ->
  sync.locked (mu (openshiftRoutes (config w))) = true ->
  autodetect.AutoDetect.OpenShiftRoutesAvailability ad (env w) = (Ok ora, e1) ->
  AutoDetect w = Blocked.
Proof.
  destruct w as [c k t g]. destruct c. cbn. intros Had Hheld Hroutes.
  unfold AutoDetect, logger_V_Info, autoDetect_OpenShiftRoutesAvailability,
    openshiftRoutes_Get, on_openshiftRoutes, emit, modify, gets, zoom, bind,
    ret. cbn.
  rewrite Had. cbn. rewrite Hroutes. cbn.
  rewrite Get_held by assumption. reflexivity.
Qed.

(** Registering a callback keeps the configuration ready. *)
Lemma Ready_RegisterOpenShiftRoutesChangeCallback
  (ad : autodetect.AutoDetect.t Env) (f : Callback Env) (w : World Env) :
  Ready ad w ->
  Ready ad (set_config (RegisterOpenShiftRoutesChangeCallback f (config w)) w).
Proof.
  destruct w as [c k t g]. destruct c. exact (fun H => H).
Qed.

(** The callbacks are kept in the order in which they were registered. *)
Lemma RegisterOpenShiftRoutesChangeCallback_appends
  (f : Callback Env) (c : Config Env) :
  callbacks (onOpenShiftRoutesChange
               (RegisterOpenShiftRoutesChangeCallback f c)) =
  callbacks (onOpenShiftRoutesChange c) ++ [f].
Proof.
  reflexivity.
Qed.

(** A configuration made by [New] with a probe, and with options that
    leave the detected state alone, is ready. *)
Lemma Ready_New {Version : Type} (version_Get : Version)
  (DefaultAutoscalingVersion : autodetect.AutoscalingVersion)
  (opts : list (Option Env Version)) (ad : autodetect.AutoDetect.t Env)
  (k : Env) (t : list Event) (g : list Goroutine) :
  Forall keeps_detected_state opts ->
  autoDetect (New version_Get DefaultAutoscalingVersion opts) = Some ad ->
  Ready ad
    {| config := New version_Get DefaultAutoscalingVersion opts;
       env := k; trace := t; goroutines := g |}.
Proof.
  intros Hkeep Had. split; [exact Had|]. cbn.
  destruct (apply_options_keep opts Hkeep
              (default_options version_Get DefaultAutoscalingVersion))
    as [-> _].
  reflexivity.
Qed.

End Readiness.

(** ** The events of a pass *)

Section EventProperties.

Context {Env : Type}.

Lemma probe_calls_app (evs evs' : list Event) :
  probe_calls (evs ++ evs') = probe_calls evs ++ probe_calls evs'.
Proof.
  apply filter_app.
Qed.

Lemma probe_calls_change_events (c : Config Env)
  (ora : autodetect.OpenShiftRoutesAvailability) (e : Env) :
  probe_calls (change_events c ora e) = [].
Proof.
  unfold change_events. cbn. rewrite probe_calls_app.
  unfold probe_calls at 1.
  rewrite filter_callback_events by reflexivity.
  destruct (callbacks_error _ e); reflexivity.
Qed.

Lemma probe_calls_version_events (c : Config Env)
  (r : Result autodetect.AutoscalingVersion) :
  probe_calls (version_events c r) = [EvHPAVersion r].
Proof.
  destruct r; reflexivity.
Qed.

Lemma no_change_in_version_events (c : Config Env)
  (r : Result autodetect.AutoscalingVersion) :
  existsb is_change_event (version_events c r) = false.
Proof.
  destruct r; reflexivity.
Qed.

Lemma callbacks_run_version_events (c : Config Env)
  (r : Result autodetect.AutoscalingVersion) :
  callbacks_run (version_events c r) = [].
Proof.
  destruct r; reflexivity.
Qed.

Lemma callbacks_run_change_events (c : Config Env)
  (ora : autodetect.OpenShiftRoutesAvailability) (e : Env) :
  callbacks_run (change_events c ora e) =
  seq 0 (List.length (callbacks (onOpenShiftRoutesChange c))).
Proof.
  unfold change_events. cbn. rewrite callbacks_run_app.
  rewrite callbacks_run_callback_events.
  destruct (callbacks_error _ e); cbn; apply app_nil_r.
Qed.

(** A probe call recorded in the history is one of the probe calls. *)
Lemma In_probe_calls (ev : Event) (evs : list Event) :
  is_probe_call ev = true -> In ev evs -> In ev (probe_calls evs).
Proof.
  intros Hev Hin. apply filter_In. split; assumption.
Qed.

End EventProperties.

(** ** The detection pass *)

Section Pass.

Context {Env : Type}.
Variable ad : autodetect.AutoDetect.t Env.

Ltac pass_cases w Hready :=
  let ora := fresh "ora" in
  let rerr := fresh "rerr" in
  let e1 := fresh "e1" in
  let e2 := fresh "e2" in
  let r := fresh "r" in
  let Hroutes := fresh "Hroutes" in
  let Hhpa := fresh "Hhpa" in
  let Hsame := fresh "Hsame" in
  let Hdiff := fresh "Hdiff" in
  destruct (autodetect.AutoDetect.OpenShiftRoutesAvailability ad (env w))
    as [[ora|rerr] e1] eqn:Hroutes;
  [ destruct (autodetect.OpenShiftRoutesAvailability_eq_dec
                (current (openshiftRoutes (config w))) ora) as [Hsame|Hdiff];
    [ subst ora;
      destruct (autodetect.AutoDetect.HPAVersion ad e1) as [r e2] eqn:Hhpa;
      rewrite (AutoDetect_steady ad w e1 r e2 Hready Hroutes Hhpa)
    | destruct (autodetect.AutoDetect.HPAVersion ad
                  (callbacks_env
                     (callbacks (onOpenShiftRoutesChange (config w))) e1))
        as [r e2] eqn:Hhpa;
      rewrite (AutoDetect_changed ad w ora e1 r e2 Hready Hroutes Hdiff Hhpa) ]
  | rewrite (AutoDetect_routes_failed ad w rerr e1 Hready Hroutes) ].

Lemma Ready_versioned (r : Result autodetect.AutoscalingVersion)
  (c : Config Env) (e : Env) (evs : list Event) (w : World Env) :
  Ready ad (after_pass c e evs w) ->
  Ready ad (after_pass (versioned r c) e evs w).
Proof.
  destruct r; [|exact (fun H => H)]. destruct c. exact (fun H => H).
Qed.

Lemma Ready_stored (ora : autodetect.OpenShiftRoutesAvailability)
  (c : Config Env) (e : Env) (evs : list Event) (w : World Env) :
  Ready ad (after_pass c e evs w) ->
  Ready ad (after_pass (stored ora c) e evs w).
Proof.
  destruct c. exact (fun H => H).
Qed.

Lemma Ready_after_pass (e : Env) (evs : list Event) (w : World Env) :
  Ready ad w -> Ready ad (after_pass (config w) e evs w).
Proof.
  exact (fun H => H).
Qed.

(** A pass always returns, and it leaves a world another pass can run
    on. *)
Lemma AutoDetect_returns (w : World Env) :
  Ready ad w ->
  exists err w',
    AutoDetect w = Done (err, w') /\ Ready ad w' /\
    goroutines w' = goroutines w.
Proof.
  intros Hready.
  pass_cases w Hready; do 2 eexists; (split; [reflexivity|]);
    (split; [|reflexivity]).
  - apply Ready_versioned, Ready_after_pass, Hready.
  - apply Ready_versioned, Ready_stored, Ready_after_pass, Hready.
  - apply Ready_after_pass, Hready.
Qed.

(** A pass makes exactly one [OpenShiftRoutesAvailability] call. *)
Lemma AutoDetect_one_routes_call (w : World Env) :
  Ready ad w ->
  exists err evs w',
    AutoDetect w = Done (err, w') /\
    trace w' = trace w ++ evs /\
    Ready ad w' /\
    List.length
      (filter (fun ev =>
                 match ev with
                 | EvOpenShiftRoutesAvailability _ => true
                 | _ => false
                 end) evs) = 1.
Proof.
  intros Hready.
  pass_cases w Hready; do 3 eexists; (split; [reflexivity|]);
    (split; [reflexivity|]).
  - split; [apply Ready_versioned, Ready_after_pass, Hready|].
    destruct r; reflexivity.
  - split; [apply Ready_versioned, Ready_stored, Ready_after_pass, Hready|].
    cbn. rewrite filter_app. unfold change_events. cbn.
    rewrite !filter_app, filter_callback_events by reflexivity.
    destruct (callbacks_error _ e1), r; reflexivity.
  - split; [apply Ready_after_pass, Hready|]. reflexivity.
Qed.

(** C1. [AutoDetect] returns nil if and only if the calls it made on the
    probe are a successful [OpenShiftRoutesAvailability] followed by a
    successful [HPAVersion]; otherwise it returns the error of the call
    that failed. When [OpenShiftRoutesAvailability] fails, its error is
    returned and it is the only call made on the probe in that pass:
    [HPAVersion] is not queried. *)
Theorem AutoDetect_returns_nil_iff_both_probes_succeed (w : World Env) :
  Ready ad w ->
  exists err evs w',
    AutoDetect w = Done (err, w') /\
    trace w' = trace w ++ evs /\
    hd_error (probe_calls evs) =
      Some (EvOpenShiftRoutesAvailability
              (fst (autodetect.AutoDetect.OpenShiftRoutesAvailability ad (env w)))) /\
    (err = None <->
       exists ora v,
         probe_calls evs =
         [EvOpenShiftRoutesAvailability (Ok ora); EvHPAVersion (Ok v)]) /\
    (forall e,
       err = Some e <->
       probe_calls evs = [EvOpenShiftRoutesAvailability (Err e)] \/
       exists ora,
         probe_calls evs =
         [EvOpenShiftRoutesAvailability (Ok ora); EvHPAVersion (Err e)]) /\
    (forall e,
       fst (autodetect.AutoDetect.OpenShiftRoutesAvailability ad (env w)) = Err e ->
       err = Some e /\
       probe_calls evs = [EvOpenShiftRoutesAvailability (Err e)] /\
       existsb is_EvHPAVersion evs = false /\
       env w' = snd (autodetect.AutoDetect.OpenShiftRoutesAvailability ad (env w))).
Proof.
  intros Hready.
  pass_cases w Hready; do 3 eexists; (split; [reflexivity|]);
    (split; [reflexivity|]);
    repeat rewrite probe_calls_app;
    try rewrite probe_calls_change_events;
    try rewrite probe_calls_version_events; cbn.
  - split; [reflexivity|]. destruct r as [v|err]; cbn.
    + repeat split; try discriminate; eauto.
      * intros [H|[ora H]]; discriminate.
    + repeat split; try discriminate.
      * intros (ora & v & H). discriminate.
      * intros H. injection H as ->. right. eauto.
      * intros [H|[ora H]]; [discriminate|]. injection H as _ ->. reflexivity.
  - split; [reflexivity|]. destruct r as [v|err]; cbn.
    + repeat split; try discriminate; eauto.
      * intros [H|[ora' H]]; discriminate.
    + repeat split; try discriminate.
      * intros (ora' & v & H). discriminate.
      * intros H. injection H as ->. right. eauto.
      * intros [H|[ora' H]]; [discriminate|]. injection H as _ ->. reflexivity.
  - split; [reflexivity|]. repeat split; try discriminate.
    + intros (ora & v & H). discriminate.
    + intros H. injection H as ->. left. reflexivity.
    + intros [H|[ora H]]; [|discriminate]. injection H as ->. reflexivity.
    + injection H as ->. reflexivity.
    + injection H as ->. reflexivity.
Qed.


(** C3. In a pass whose [OpenShiftRoutesAvailability] call returns the
    value the store holds, [AutoDetect] makes no [Set] on the store, does
    not call [Do] and no registered callback runs: the store is as it
    was, and the environment has only been touched by the two probe
    calls. *)
Theorem AutoDetect_same_value_sets_nothing_and_notifies_nobody
  (w : World Env) :
  Ready ad w ->
  fst (autodetect.AutoDetect.OpenShiftRoutesAvailability ad (env w)) =
    Ok (current (openshiftRoutes (config w))) ->
  exists err evs w',
    AutoDetect w = Done (err, w') /\
    trace w' = trace w ++ evs /\
    existsb is_EvSet evs = false /\
    existsb is_EvDo evs = false /\
    existsb is_EvCallback evs = false /\
    callbacks_run evs = [] /\
    openshiftRoutes (config w') = openshiftRoutes (config w) /\
    env w' =
      snd (autodetect.AutoDetect.HPAVersion ad
             (snd (autodetect.AutoDetect.OpenShiftRoutesAvailability ad (env w)))).
Proof.
  intros Hready Hsame.
  destruct (autodetect.AutoDetect.OpenShiftRoutesAvailability ad (env w))
    as [r1 e1] eqn:Hroutes.
  cbn in Hsame. subst r1.
  destruct (autodetect.AutoDetect.HPAVersion ad e1) as [r e2] eqn:Hhpa.
  rewrite (AutoDetect_steady ad w e1 r e2 Hready Hroutes Hhpa).
  do 3 eexists. split; [reflexivity|]. split; [reflexivity|].
  cbn [snd]. rewrite Hhpa.
  destruct r as [v|err]; cbn; repeat split;
    destruct w as [c k t g]; destruct c; reflexivity.
Qed.

(** C4. In a pass whose [OpenShiftRoutesAvailability] call returns a
    value [ora] other than the one the store holds, [AutoDetect] makes
    one [Set ora] on the store, then calls [Do] once, and that round
    runs every registered callback exactly once, in registration order,
    each in the environment its predecessor left; nothing else in the
    pass touches the store or the callbacks. The store holds [ora]
    afterwards. *)
Theorem AutoDetect_new_value_is_stored_then_callbacks_run_in_order
  (w : World Env) (ora : autodetect.OpenShiftRoutesAvailability) :
  Ready ad w ->
  fst (autodetect.AutoDetect.OpenShiftRoutesAvailability ad (env w)) = Ok ora ->
  current (openshiftRoutes (config w)) <> ora ->
  let fs := callbacks (onOpenShiftRoutesChange (config w)) in
  let e1 := snd (autodetect.AutoDetect.OpenShiftRoutesAvailability ad (env w)) in
  exists err evs w',
    AutoDetect w = Done (err, w') /\
    trace w' = trace w ++ evs /\
    current (openshiftRoutes (config w')) = ora /\
    (exists before after,
       evs = before ++ [EvSet ora; EvDo] ++ callback_events 0 fs e1 ++ after /\
       existsb is_change_event before = false /\
       existsb is_change_event after = false) /\
    callbacks_run evs = seq 0 (List.length fs) /\
    env w' = snd (autodetect.AutoDetect.HPAVersion ad (callbacks_env fs e1)).
Proof.
  intros Hready Hok Hne fs e1. subst fs e1.
  destruct (autodetect.AutoDetect.OpenShiftRoutesAvailability ad (env w))
    as [r1 e1] eqn:Hroutes.
  cbn in Hok. subst r1. cbn [snd].
  destruct (autodetect.AutoDetect.HPAVersion ad
              (callbacks_env (callbacks (onOpenShiftRoutesChange (config w))) e1))
    as [r e2] eqn:Hhpa.
  rewrite (AutoDetect_changed ad w ora e1 r e2 Hready Hroutes Hne Hhpa).
  do 3 eexists. split; [reflexivity|]. split; [reflexivity|].
  split; [destruct r, w as [c k t g]; destruct c; reflexivity|].
  split; [|split; [|reflexivity]].
  - exists [entry_detecting (config w);
            EvOpenShiftRoutesAvailability (Ok ora);
            EvGet (current (openshiftRoutes (config w)));
            entry_routes_detected (config w) ora].
    exists (match callbacks_error
                    (callbacks (onOpenShiftRoutesChange (config w))) e1 with
            | Some err => [entry_notification_failed (config w) err]
            | None => []
            end ++ version_events (config w) r).
    split; [|split; [reflexivity|]].
    + unfold change_events. cbn. rewrite <- !app_assoc. reflexivity.
    + rewrite existsb_app, no_change_in_version_events.
      destruct (callbacks_error _ e1); reflexivity.
  - rewrite !callbacks_run_app, callbacks_run_change_events,
      callbacks_run_version_events. cbn. apply app_nil_r.
Qed.

(** C5. In a pass that stores a new value, let the callback registered
    at position [i] return an error. Every callback registered after it
    is still called in that round, in the environment its predecessors
    left; the failure is logged; and the error [AutoDetect] returns is
    that of the [HPAVersion] call alone, so the pass returns nil when
    that call succeeds. *)
Theorem failing_callback_stops_neither_later_callbacks_nor_the_pass
  (w : World Env) (ora : autodetect.OpenShiftRoutesAvailability)
  (i : nat) (g : Callback Env) (cberr : error) :
  Ready ad w ->
  fst (autodetect.AutoDetect.OpenShiftRoutesAvailability ad (env w)) = Ok ora ->
  current (openshiftRoutes (config w)) <> ora ->
  nth_error (callbacks (onOpenShiftRoutesChange (config w))) i = Some g ->
  fst (g (callbacks_env
            (firstn i (callbacks (onOpenShiftRoutesChange (config w))))
            (snd (autodetect.AutoDetect.OpenShiftRoutesAvailability ad (env w)))))
    = Some cberr ->
  let fs := callbacks (onOpenShiftRoutesChange (config w)) in
  let e1 := snd (autodetect.AutoDetect.OpenShiftRoutesAvailability ad (env w)) in
  exists err evs w',
    AutoDetect w = Done (err, w') /\
    trace w' = trace w ++ evs /\
    In (EvCallback i (Some cberr)) evs /\
    (forall j f,
       i < j ->
       nth_error fs j = Some f ->
       In (EvCallback j (fst (f (callbacks_env (firstn j fs) e1)))) evs) /\
    callbacks_run evs = seq 0 (List.length fs) /\
    (exists first,
       callbacks_error fs e1 = Some first /\
       In (entry_notification_failed (config w) first) evs) /\
    err = version_error
            (fst (autodetect.AutoDetect.HPAVersion ad (callbacks_env fs e1))) /\
    (forall v, In (EvHPAVersion (Ok v)) evs -> err = None).
Proof.
  intros Hready Hok Hne Hi Hg fs e1. subst fs e1.
  destruct (autodetect.AutoDetect.OpenShiftRoutesAvailability ad (env w))
    as [r1 e1] eqn:Hroutes.
  cbn in Hok. subst r1. cbn [snd] in *.
  destruct (autodetect.AutoDetect.HPAVersion ad
              (callbacks_env (callbacks (onOpenShiftRoutesChange (config w))) e1))
    as [r e2] eqn:Hhpa.
  rewrite (AutoDetect_changed ad w ora e1 r e2 Hready Hroutes Hne Hhpa).
  do 3 eexists. split; [reflexivity|]. split; [reflexivity|].
  assert (Hround : forall j f,
             nth_error (callbacks (onOpenShiftRoutesChange (config w))) j
               = Some f ->
             In (EvCallback j
                   (fst (f (callbacks_env
                              (firstn j
                                 (callbacks
                                    (onOpenShiftRoutesChange (config w))))
                              e1))))
                ([entry_detecting (config w);
                  EvOpenShiftRoutesAvailability (Ok ora);
                  EvGet (current (openshiftRoutes (config w)))]
                 ++ change_events (config w) ora e1
                 ++ version_events (config w) r)).
  { intros j f Hj. apply in_or_app. right. apply in_or_app. left.
    unfold change_events. apply in_or_app. right. apply in_or_app. left.
    exact (callback_events_nth _ 0 e1 j f Hj). }
  split; [rewrite <- Hg; exact (Hround i g Hi)|].
  split; [intros j f _ Hj; exact (Hround j f Hj)|].
  split.
  { rewrite !callbacks_run_app, callbacks_run_change_events,
      callbacks_run_version_events. cbn. apply app_nil_r. }
  split.
  { destruct (callbacks_error_of_failure _ e1 i g cberr Hi Hg)
      as [first Hfirst].
    exists first. split; [exact Hfirst|].
    apply in_or_app. right. apply in_or_app. left.
    unfold change_events. rewrite Hfirst.
    apply in_or_app. right. apply in_or_app. right. left. reflexivity. }
  split; [reflexivity|].
  intros v Hin. apply In_probe_calls in Hin; [|reflexivity].
  rewrite !probe_calls_app, probe_calls_change_events,
    probe_calls_version_events in Hin.
  cbn in Hin. destruct Hin as [Hin|[Hin|[]]]; [discriminate|].
  injection Hin as ->. reflexivity.
Qed.

(** C10. When the [OpenShiftRoutesAvailability] call fails, [AutoDetect]
    returns its error and leaves the whole configuration as it was: the
    store holds the value it held, with its mutex free, the autoscaling
    version is the one stored before, and the registered callbacks are
    the same. *)
Theorem AutoDetect_routes_failure_leaves_config_unchanged
  (w : World Env) (e : error) :
  Ready ad w ->
  fst (autodetect.AutoDetect.OpenShiftRoutesAvailability ad (env w)) = Err e ->
  exists w',
    AutoDetect w = Done (Some e, w') /\
    config w' = config w /\
    current (openshiftRoutes (config w')) =
      current (openshiftRoutes (config w)) /\
    AutoscalingVersion (config w') = AutoscalingVersion (config w) /\
    existsb is_change_event (skipn (List.length (trace w)) (trace w')) = false /\
    goroutines w' = goroutines w.
Proof.
  intros Hready Herr.
  destruct (autodetect.AutoDetect.OpenShiftRoutesAvailability ad (env w))
    as [r1 e1] eqn:Hroutes.
  cbn in Herr. subst r1.
  rewrite (AutoDetect_routes_failed ad w e e1 Hready Hroutes).
  eexists. split; [reflexivity|]. cbn.
  repeat split.
  rewrite skipn_app, skipn_all, Nat.sub_diag. reflexivity.
Qed.



(** C6. [StartAutoDetect] runs one pass and returns the error of that
    pass, nil or not; in both cases the world it leaves is the one the
    pass left with the goroutine [periodicAutoDetect] started. *)
Theorem StartAutoDetect_returns_first_error_and_starts_the_loop
  (w : World Env) :
  Ready ad w ->
  exists err w1,
    AutoDetect w = Done (err, w1) /\
    StartAutoDetect w =
      Done (err,
            {| config := config w1; env := env w1; trace := trace w1;
               goroutines := goroutines w ++ [GoPeriodicAutoDetect] |}) /\
    (forall e,
       fst (autodetect.AutoDetect.OpenShiftRoutesAvailability ad (env w)) = Err e ->
       err = Some e).
Proof.
  intros Hready.
  unfold StartAutoDetect, bind, go, modify, ret.
  pass_cases w Hready; do 2 eexists; (split; [reflexivity|]);
    (split; [reflexivity|]); intros e He; cbn in He; try discriminate.
  injection He as ->. reflexivity.
Qed.

(** The loop goes on whatever the passes return: after [ticks] ticks it
    has run [ticks] passes, and the world can take the next one. *)
Lemma periodicAutoDetect_loop_goes_on (ticks : nat) :
  forall w : World Env,
    Ready ad w ->
    exists w',
      periodicAutoDetect_loop ticks w = Done (tt, w') /\
      Ready ad w' /\
      exists evs,
        trace w' = trace w ++ evs /\
        List.length
          (filter (fun ev =>
                     match ev with
                     | EvOpenShiftRoutesAvailability _ => true
                     | _ => false
                     end) evs) = ticks.
Proof.
  induction ticks as [|n IH]; intros w Hready.
  - exists w. split; [reflexivity|]. split; [assumption|].
    exists []. split; [symmetry; apply app_nil_r|reflexivity].
  - cbn [periodicAutoDetect_loop].
    destruct (AutoDetect_one_routes_call w Hready)
      as (err & evs & w1 & Hrun & Htrace & Hready1 & Hcalls).
    unfold bind at 1. rewrite Hrun.
    destruct err as [err|].
    + unfold bind at 1. unfold logger_Info, logger_V_Info, bind, gets, emit,
        modify. cbn.
      match goal with
      | |- context [periodicAutoDetect_loop n ?w2] =>
          destruct (IH w2) as (w' & Hloop & Hready' & evs' & Htrace' & Hcount)
      end.
      { destruct w1 as [c k t g]; destruct c; exact Hready1. }
      exists w'. split; [exact Hloop|]. split; [exact Hready'|].
      eexists. split.
      * rewrite Htrace'. cbn. rewrite Htrace. rewrite <- !app_assoc.
        reflexivity.
      * rewrite !filter_app, !length_app. cbn. rewrite Hcount, Hcalls. lia.
    + unfold bind at 1. cbn.
      destruct (IH w1 Hready1) as (w' & Hloop & Hready' & evs' & Htrace' & Hcount).
      exists w'. split; [exact Hloop|]. split; [exact Hready'|].
      eexists. split.
      * rewrite Htrace', Htrace. rewrite <- app_assoc. reflexivity.
      * rewrite filter_app, length_app. rewrite Hcount, Hcalls. lia.
Qed.

End Pass.

(** ** The periodic loop *)

(** With a positive frequency the loop starts and keeps going; with any
    other frequency the ticker cannot be made. *)
Lemma periodicAutoDetect_goes_on {Env : Type}
  (ad : autodetect.AutoDetect.t Env) (ticks : nat) (w : World Env) :
  Ready ad w ->
  (0 < autoDetectFrequency (config w))%Z ->
  exists w', periodicAutoDetect ticks w = Done (tt, w') /\ Ready ad w'.
Proof.
  intros Hready Hpos.
  unfold periodicAutoDetect, time_NewTicker, bind, gets.
  apply Z.ltb_lt in Hpos. rewrite Hpos. cbn.
  destruct (periodicAutoDetect_loop_goes_on ad ticks w Hready)
    as (w' & Hloop & Hready' & _).
  exists w'. split; assumption.
Qed.

Lemma periodicAutoDetect_needs_positive_frequency {Env : Type}
  (ticks : nat) (w : World Env) :
  (autoDetectFrequency (config w) <= 0)%Z ->
  periodicAutoDetect ticks w = Panicked.
Proof.
  intros Hneg.
  unfold periodicAutoDetect, time_NewTicker, bind, gets.
  apply Z.ltb_ge in Hneg. rewrite Hneg. reflexivity.
Qed.

(** * The scenario, run *)

(** Whatever the cluster answers, the operator of the scenario is ready. *)
Lemma Scenario_Ready (k : Scenario.Cluster) :
  Ready Scenario.probe (Scenario.start Scenario.operator k).
Proof.
  split; reflexivity.
Qed.

(** The routes query fails: its error comes back and [HPAVersion] is
    not called. *)
Lemma AutoDetect_returns_nil_iff_both_probes_succeed_witness :
  Ready Scenario.probe Scenario.routes_down /\
  exists evs w',
    AutoDetect Scenario.routes_down =
      Done (Some "routes discovery failed", w') /\
    trace w' = evs /\
    existsb is_EvHPAVersion evs = false.
Proof.
  split; [apply Scenario_Ready|].
  destruct (AutoDetect_returns_nil_iff_both_probes_succeed
              Scenario.probe Scenario.routes_down (Scenario_Ready _))
    as (err & evs & w' & Hrun & Htrace & _ & _ & _ & Hfail).
  destruct (Hfail "routes discovery failed" eq_refl) as (Herr & _ & Hnone & _).
  exists evs, w'. rewrite Hrun, Herr. repeat split; assumption.
Defined.


(** Nothing new about the routes: no [Set], no callback, an empty
    journal. *)
Lemma AutoDetect_same_value_sets_nothing_and_notifies_nobody_witness :
  Ready Scenario.probe Scenario.steady /\
  fst (autodetect.AutoDetect.OpenShiftRoutesAvailability Scenario.probe
         (env Scenario.steady)) =
    Ok (current (openshiftRoutes (config Scenario.steady))) /\
  exists err evs w',
    AutoDetect Scenario.steady = Done (err, w') /\
    trace w' = evs /\
    existsb is_EvSet evs = false /\
    callbacks_run evs = [] /\
    Scenario.journal (env w') = [].
Proof.
  split; [apply Scenario_Ready|]. split; [reflexivity|].
  destruct (AutoDetect_same_value_sets_nothing_and_notifies_nobody
              Scenario.probe Scenario.steady (Scenario_Ready _) eq_refl)
    as (err & evs & w' & Hrun & Htrace & Hset & _ & _ & Hnone & _ & Henv).
  exists err, evs, w'. rewrite Henv. repeat split; assumption.
Defined.

(** The routes appear: the three callbacks run in the order of their
    registration. *)
Lemma AutoDetect_new_value_is_stored_then_callbacks_run_in_order_witness :
  Ready Scenario.probe Scenario.upgrade /\
  fst (autodetect.AutoDetect.OpenShiftRoutesAvailability Scenario.probe
         (env Scenario.upgrade)) = Ok autodetect.OpenShiftRoutesAvailable /\
  current (openshiftRoutes (config Scenario.upgrade)) <>
    autodetect.OpenShiftRoutesAvailable /\
  exists err evs w',
    AutoDetect Scenario.upgrade = Done (err, w') /\
    trace w' = evs /\
    current (openshiftRoutes (config w')) = autodetect.OpenShiftRoutesAvailable /\
    callbacks_run evs = [0; 1; 2] /\
    Scenario.journal (env w') = ["first"; "second"; "third"].
Proof.
  assert (Hne : current (openshiftRoutes (config Scenario.upgrade)) <>
                autodetect.OpenShiftRoutesAvailable) by discriminate.
  split; [apply Scenario_Ready|]. split; [reflexivity|]. split; [exact Hne|].
  destruct (AutoDetect_new_value_is_stored_then_callbacks_run_in_order
              Scenario.probe Scenario.upgrade
              autodetect.OpenShiftRoutesAvailable
              (Scenario_Ready _) eq_refl Hne)
    as (err & evs & w' & Hrun & Htrace & Hstore & _ & Horder & Henv).
  exists err, evs, w'. rewrite Henv. repeat split; assumption.
Defined.

(** The second callback fails: the third one still runs, the failure is
    logged and the pass returns nil. *)
Lemma failing_callback_stops_neither_later_callbacks_nor_the_pass_witness :
  Ready Scenario.probe Scenario.upgrade /\
  nth_error (callbacks (onOpenShiftRoutesChange (config Scenario.upgrade))) 1 =
    Some (Scenario.failing "second") /\
  exists evs w',
    AutoDetect Scenario.upgrade = Done (None, w') /\
    trace w' = evs /\
    In (EvCallback 1 (Some "second")) evs /\
    In (EvCallback 2 None) evs /\
    In (entry_notification_failed (config Scenario.upgrade) "second") evs.
Proof.
  assert (Hne : current (openshiftRoutes (config Scenario.upgrade)) <>
                autodetect.OpenShiftRoutesAvailable) by discriminate.
  split; [apply Scenario_Ready|]. split; [reflexivity|].
  destruct (failing_callback_stops_neither_later_callbacks_nor_the_pass
              Scenario.probe Scenario.upgrade
              autodetect.OpenShiftRoutesAvailable
              1 (Scenario.failing "second") "second"
              (Scenario_Ready _) eq_refl Hne eq_refl eq_refl)
    as (err & evs & w' & Hrun & Htrace & Hfailed & Hlater & _ & Hlogged
        & Herr & _).
  destruct Hlogged as (first & Hfirst & Hlogged).
  injection Hfirst as <-.
  exists evs, w'. rewrite Hrun, Herr.
  repeat split; try assumption.
  exact (Hlater 2 (Scenario.succeeding "third") (le_n 2) eq_refl).
Defined.

(** The first pass fails: its error comes back and the loop is started
    all the same. *)
Lemma StartAutoDetect_returns_first_error_and_starts_the_loop_witness :
  Ready Scenario.probe Scenario.routes_down /\
  exists w',
    StartAutoDetect Scenario.routes_down =
      Done (Some "routes discovery failed", w') /\
    goroutines w' = [GoPeriodicAutoDetect].
Proof.
  split; [apply Scenario_Ready|].
  destruct (StartAutoDetect_returns_first_error_and_starts_the_loop
              Scenario.probe Scenario.routes_down (Scenario_Ready _))
    as (err & w1 & _ & Hstart & Hfirst).
  eexists. rewrite Hstart, (Hfirst "routes discovery failed" eq_refl).
  split; reflexivity.
Defined.


(** The fresh configuration of the scenario, made with one option that
    configures the probe. *)
Lemma New_starts_NotAvailable_with_default_version_witness :
  Forall keeps_detected_state [Scenario.with_autoDetect Scenario.probe] /\
  current (openshiftRoutes Scenario.fresh) =
    autodetect.OpenShiftRoutesNotAvailable /\
  AutoscalingVersion Scenario.fresh = autodetect.AutoscalingVersionV2.
Proof.
  assert (Hkeep : Forall keeps_detected_state
                    [Scenario.with_autoDetect Scenario.probe]).
  { constructor; [|constructor]. intros o. split; reflexivity. }
  split; [exact Hkeep|].
  destruct (New_starts_NotAvailable_with_default_version
              "v0" autodetect.AutoscalingVersionV2
              [Scenario.with_autoDetect Scenario.probe] Hkeep)
    as (Hstore & _ & Hversion).
  split; [|exact Hversion].
  unfold Scenario.fresh. rewrite Hstore. reflexivity.
Defined.

(** A [Set], two [Get]s, and a [Get] on a new store. *)
Lemma Get_after_Set_returns_the_value_set_witness :
  sync.locked (mu newOpenShiftRoutesWrapper) = false /\
  existsb is_CallSet [CallGet; CallGet] = false /\
  (Set_ autodetect.OpenShiftRoutesAvailable ;;
   run_calls [CallGet; CallGet] ;;
   Get) newOpenShiftRoutesWrapper =
  Done (autodetect.OpenShiftRoutesAvailable,
        set_current autodetect.OpenShiftRoutesAvailable
          newOpenShiftRoutesWrapper).
Proof.
  split; [reflexivity|]. split; [reflexivity|].
  apply (Get_after_Set_returns_the_value_set
           autodetect.OpenShiftRoutesAvailable [CallGet; CallGet]
           newOpenShiftRoutesWrapper); reflexivity.
Defined.

(** The routes query fails: the configuration is the operator's, as
    before. *)
Lemma AutoDetect_routes_failure_leaves_config_unchanged_witness :
  Ready Scenario.probe Scenario.routes_down /\
  fst (autodetect.AutoDetect.OpenShiftRoutesAvailability Scenario.probe
         (env Scenario.routes_down)) = Err "routes discovery failed" /\
  exists w',
    AutoDetect Scenario.routes_down =
      Done (Some "routes discovery failed", w') /\
    config w' = Scenario.operator.
Proof.
  split; [apply Scenario_Ready|]. split; [reflexivity|].
  destruct (AutoDetect_routes_failure_leaves_config_unchanged
              Scenario.probe Scenario.routes_down "routes discovery failed"
              (Scenario_Ready _) eq_refl)
    as (w' & Hrun & Hconfig & _).
  exists w'. split; assumption.
Defined.

(** The scenario of the spec: from NotAvailable and V2, a first pass on a
    cluster with routes and V1 stores both and runs the callbacks once;
    a second pass on the same cluster changes nothing and runs no
    callback. *)
Example first_pass :
  Scenario.observe (AutoDetect Scenario.upgrade) =
  Some (None,
        (autodetect.OpenShiftRoutesAvailable,
         autodetect.AutoscalingVersionV1,
         [0; 1; 2],
         ["first"; "second"; "third"])).
Proof.
  vm_compute. reflexivity.
Qed.

Example second_pass :
  Scenario.observe ((AutoDetect ;; AutoDetect) Scenario.upgrade) =
  Some (None,
        (autodetect.OpenShiftRoutesAvailable,
         autodetect.AutoscalingVersionV1,
         [0; 1; 2],
         ["first"; "second"; "third"])).
Proof.
  vm_compute. reflexivity.
Qed.

(** A first pass that fails is reported by [StartAutoDetect] and leaves
    the detected state as it was. *)
Example failed_start :
  Scenario.observe (StartAutoDetect Scenario.routes_down) =
  Some (Some "routes discovery failed",
        (autodetect.OpenShiftRoutesNotAvailable,
         autodetect.AutoscalingVersionV2,
         [],
         [])).
Proof.
  vm_compute. reflexivity.
Qed.

(** * More properties *)

(** ** Sequences of calls on the store *)

Lemma Get_results_come_from_Sets (cs : list StoreCall) :
  forall (d x : autodetect.OpenShiftRoutesAvailability),
    In x (Get_results cs d) -> x = d \/ In (CallSet x) cs.
Proof.
  induction cs as [|[|ora] rest IH]; intros d x Hin; cbn in *.
  - contradiction.
  - destruct Hin as [<-|Hin]; [left; reflexivity|].
    destruct (IH d x Hin) as [->|Hset]; [left; reflexivity|right; right; exact Hset].
  - destruct (IH ora x Hin) as [->|Hset]; [right; left; reflexivity|].
    right; right; exact Hset.
Qed.

Lemma Get_results_length (cs : list StoreCall) :
  forall d : autodetect.OpenShiftRoutesAvailability,
    List.length (Get_results cs d) = List.length (filter is_CallGet cs).
Proof.
  induction cs as [|[|ora] rest IH]; intros d; cbn; [reflexivity| |apply IH].
  rewrite IH. reflexivity.
Qed.

Lemma last_Set_without_Gets (cs : list StoreCall) :
  forall d : autodetect.OpenShiftRoutesAvailability,
    last_Set (filter is_CallSet cs) d = last_Set cs d.
Proof.
  induction cs as [|[|ora] rest IH]; intros d; cbn; auto.
Qed.

Lemma Get_results_without_Gets (cs : list StoreCall) :
  forall d : autodetect.OpenShiftRoutesAvailability,
    Get_results (filter is_CallSet cs) d = [].
Proof.
  induction cs as [|[|ora] rest IH]; intros d; cbn; auto.
Qed.

(** X1. Whatever sequence of [Set]s and [Get]s runs on a store whose
    mutex is free, every value a [Get] returns is the value the store
    held at first or the argument of one of the [Set]s: a [Get] never
    returns anything else. *)
Theorem Get_only_returns_values_that_were_set
  (cs : list StoreCall) (p : openshiftRoutesWrapper) :
  sync.locked (mu p) = false ->
  exists seen p',
    run_calls cs p = Done (seen, p') /\
    forall x, In x seen -> x = current p \/ In (CallSet x) cs.
Proof.
  intros Hfree. rewrite run_calls_free by assumption.
  do 2 eexists. split; [reflexivity|].
  intros x. apply Get_results_come_from_Sets.
Qed.

(** X2. [Set] and [Get] release the mutex they take: any sequence of
    calls on a store whose mutex is free runs to its end without
    waiting or panicking, returns one value for each [Get], and leaves
    the mutex free. *)
Theorem store_calls_leave_the_mutex_free
  (cs : list StoreCall) (p : openshiftRoutesWrapper) :
  sync.locked (mu p) = false ->
  exists seen p',
    run_calls cs p = Done (seen, p') /\
    sync.locked (mu p') = false /\
    List.length seen = List.length (filter is_CallGet cs).
Proof.
  intros Hfree. rewrite run_calls_free by assumption.
  do 2 eexists. split; [reflexivity|]. split.
  - destruct p; exact Hfree.
  - apply Get_results_length.
Qed.

(** X3. [Get] does not write: a sequence of calls leaves the store
    exactly as the [Set]s among them alone would have left it. *)
Theorem Gets_leave_the_store_alone
  (cs : list StoreCall) (p : openshiftRoutesWrapper) :
  sync.locked (mu p) = false ->
  exists seen p',
    run_calls cs p = Done (seen, p') /\
    run_calls (filter is_CallSet cs) p = Done ([], p').
Proof.
  intros Hfree. rewrite !run_calls_free by assumption.
  do 2 eexists. split; [reflexivity|].
  rewrite last_Set_without_Gets, Get_results_without_Gets. reflexivity.
Qed.

(** ** Counting the events of a pass *)

Section CountProperties.

Context {Env : Type}.

Lemma count_events_app (keep : Event -> bool) (evs evs' : list Event) :
  count_events keep (evs ++ evs') =
  count_events keep evs + count_events keep evs'.
Proof.
  unfold count_events. rewrite filter_app. apply length_app.
Qed.

Lemma count_change_events (keep : Event -> bool) (c : Config Env)
  (ora : autodetect.OpenShiftRoutesAvailability) (e : Env) :
  (forall i r, keep (EvCallback i r) = false) ->
  keep (entry_routes_detected c ora) = false ->
  (forall err, keep (entry_notification_failed c err) = false) ->
  count_events keep (change_events c ora e) =
  count_events keep [EvSet ora; EvDo].
Proof.
  intros Hcallback Hdetected Hfailed.
  unfold change_events.
  rewrite !count_events_app.
  unfold count_events at 2.
  rewrite filter_callback_events by assumption.
  change [entry_routes_detected c ora; EvSet ora; EvDo]
    with ([entry_routes_detected c ora] ++ [EvSet ora; EvDo]).
  rewrite count_events_app.
  unfold count_events at 1. cbn [filter]. rewrite Hdetected. cbn [List.length].
  destruct (callbacks_error _ e) as [err|]; unfold count_events at 2;
    cbn [filter]; [rewrite Hfailed|]; cbn; lia.
Qed.

End CountProperties.

(** ** What every pass does and leaves alone *)

Section MorePass.

Context {Env : Type}.
Variable ad : autodetect.AutoDetect.t Env.

Ltac by_path w Hready :=
  let ora := fresh "ora" in
  let rerr := fresh "rerr" in
  let e1 := fresh "e1" in
  let e2 := fresh "e2" in
  let r := fresh "r" in
  let Hroutes := fresh "Hroutes" in
  let Hhpa := fresh "Hhpa" in
  let Hsame := fresh "Hsame" in
  let Hdiff := fresh "Hdiff" in
  destruct (autodetect.AutoDetect.OpenShiftRoutesAvailability ad (env w))
    as [[ora|rerr] e1] eqn:Hroutes;
  [ destruct (autodetect.OpenShiftRoutesAvailability_eq_dec
                (current (openshiftRoutes (config w))) ora) as [Hsame|Hdiff];
    [ subst ora;
      destruct (autodetect.AutoDetect.HPAVersion ad e1) as [r e2] eqn:Hhpa;
      rewrite (AutoDetect_steady ad w e1 r e2 Hready Hroutes Hhpa)
    | destruct (autodetect.AutoDetect.HPAVersion ad
                  (callbacks_env
                     (callbacks (onOpenShiftRoutesChange (config w))) e1))
        as [r e2] eqn:Hhpa;
      rewrite (AutoDetect_changed ad w ora e1 r e2 Hready Hroutes Hdiff Hhpa) ]
  | rewrite (AutoDetect_routes_failed ad w rerr e1 Hready Hroutes) ].

(** The account of a pass the properties below draw on. *)
Lemma AutoDetect_account (w : World Env) :
  Ready ad w ->
  exists err evs w',
    AutoDetect w = Done (err, w') /\
    trace w' = trace w ++ evs /\
    Ready ad w' /\
    goroutines w' = goroutines w /\
    config w' =
      set_openshiftRoutes (openshiftRoutes (config w'))
        (set_autoscalingVersion (autoscalingVersion (config w')) (config w)) /\
    (err <> None ->
     autoscalingVersion (config w') = autoscalingVersion (config w)) /\
    count_events is_EvSet evs = count_events is_EvDo evs /\
    count_events is_EvDo evs =
      (if autodetect.OpenShiftRoutesAvailability_eq_dec
            (current (openshiftRoutes (config w')))
            (current (openshiftRoutes (config w)))
       then 0 else 1) /\
    count_events is_failure_log evs = 0 /\
    count_events is_failed_probe_call evs =
      match err with Some _ => 1 | None => 0 end /\
    count_events is_routes_call evs = 1 /\
    (forall ora,
       fst (autodetect.AutoDetect.OpenShiftRoutesAvailability ad (env w)) = Ok ora ->
       current (openshiftRoutes (config w')) = ora).
Proof.
  intros Hready.
  by_path w Hready; do 3 eexists; (split; [reflexivity|]);
    (split; [reflexivity|]).
  - split; [apply Ready_versioned, Ready_after_pass, Hready|].
    split; [reflexivity|].
    split; [destruct r, w as [c k t g]; destruct c; reflexivity|].
    split; [destruct r; [intros H; contradiction H|]; reflexivity|].
    assert (Hcur : current (openshiftRoutes
                              (config (after_pass (versioned r (config w)) e2
                                 ([entry_detecting (config w);
                                   EvOpenShiftRoutesAvailability
                                     (Ok (current (openshiftRoutes (config w))));
                                   EvGet (current (openshiftRoutes (config w)))]
                                  ++ version_events (config w) r) w)))
                   = current (openshiftRoutes (config w)))
      by (destruct r, w as [c k t g]; destruct c; reflexivity).
    rewrite Hcur.
    destruct (autodetect.OpenShiftRoutesAvailability_eq_dec _ _) as [_|Hne];
      [|contradiction Hne; reflexivity].
    repeat split; try (destruct r; reflexivity).
    intros ora Hora. cbn in Hora. congruence.
  - split; [apply Ready_versioned, Ready_stored, Ready_after_pass, Hready|].
    split; [reflexivity|].
    split; [destruct r, w as [c k t g]; destruct c; reflexivity|].
    split; [destruct r; [intros H; contradiction H|]; reflexivity|].
    assert (Hcur : current (openshiftRoutes
                              (config (after_pass
                                 (versioned r (stored ora (config w))) e2
                                 ([entry_detecting (config w);
                                   EvOpenShiftRoutesAvailability (Ok ora);
                                   EvGet (current (openshiftRoutes (config w)))]
                                  ++ change_events (config w) ora e1
                                  ++ version_events (config w) r) w)))
                   = ora)
      by (destruct r, w as [c k t g]; destruct c; reflexivity).
    rewrite Hcur.
    destruct (autodetect.OpenShiftRoutesAvailability_eq_dec _ _) as [Heq|_];
      [symmetry in Heq; contradiction|].
    rewrite !count_events_app.
    rewrite !count_change_events by reflexivity.
    repeat split; try (destruct r; reflexivity).
    intros ora' Hora. cbn in Hora. congruence.
  - split; [apply Ready_after_pass, Hready|].
    split; [reflexivity|].
    split; [destruct w as [c k t g]; destruct c; reflexivity|].
    cbn [after_pass config].
    destruct (autodetect.OpenShiftRoutesAvailability_eq_dec _ _) as [_|Hne];
      [|contradiction Hne; reflexivity].
    repeat split. intros ora Hora. cbn in Hora. discriminate.
Qed.

(** X4. The early return comes before the store is touched: with the
    mutex of the store held by somebody else, a pass whose
    [OpenShiftRoutesAvailability] call fails still returns that error
    and leaves the [Config] as it was, while a pass whose call succeeds
    waits in [Get]. *)
Theorem AutoDetect_needs_the_store_only_after_the_routes_call
  (w : World Env) :
  autoDetect (config w) = Some ad ->
  sync.locked (mu (openshiftRoutes (config w))) = true ->
  (forall err,
     fst (autodetect.AutoDetect.OpenShiftRoutesAvailability ad (env w)) = Err err ->
     exists w', AutoDetect w = Done (Some err, w') /\ config w' = config w) /\
  (forall ora,
     fst (autodetect.AutoDetect.OpenShiftRoutesAvailability ad (env w)) = Ok ora ->
     AutoDetect w = Blocked).
Proof.
  intros Had Hheld.
  destruct (autodetect.AutoDetect.OpenShiftRoutesAvailability ad (env w))
    as [r1 e1] eqn:Hroutes.
  split.
  - intros err Herr. cbn in Herr. subst r1.
    destruct w as [c k t g]. cbn in *.
    unfold AutoDetect, logger_V_Info, autoDetect_OpenShiftRoutesAvailability,
      emit, modify, gets, zoom, bind, ret. cbn.
    rewrite Had. cbn. rewrite Hroutes. cbn.
    eexists. split; reflexivity.
  - intros ora Hora. cbn in Hora. subst r1.
    exact (AutoDetect_waits_for_the_store ad w ora e1 Had Hheld Hroutes).
Qed.

(** X5. A pass gives back what it takes: started with a probe
    configured and the mutex of the store free, [AutoDetect] returns -
    it neither waits nor panics - and leaves the probe configured and
    the mutex free, so the next pass can run; it starts no goroutine and
    only adds to the history. *)
Theorem AutoDetect_leaves_the_world_ready_for_the_next_pass
  (w : World Env) :
  Ready ad w ->
  exists err evs w',
    AutoDetect w = Done (err, w') /\
    Ready ad w' /\
    goroutines w' = goroutines w /\
    trace w' = trace w ++ evs.
Proof.
  intros Hready.
  destruct (AutoDetect_account w Hready)
    as (err & evs & w' & Hrun & Htrace & Hready' & Hgo & _).
  exists err, evs, w'. repeat split; try assumption; apply Hready'.
Qed.

(** X6. A pass writes two fields only, the store and the autoscaling
    version: the seven image accessors and [LabelsFilter] return after
    the pass what they returned before, and the logger, the frequency,
    the probe and the registered callbacks are the same. *)
Theorem AutoDetect_leaves_the_static_settings_alone (w : World Env) :
  Ready ad w ->
  exists err w',
    AutoDetect w = Done (err, w') /\
    static_settings (config w') = static_settings (config w) /\
    logger (config w') = logger (config w) /\
    autoDetectFrequency (config w') = autoDetectFrequency (config w) /\
    autoDetect (config w') = autoDetect (config w) /\
    callbacks (onOpenShiftRoutesChange (config w')) =
      callbacks (onOpenShiftRoutesChange (config w)).
Proof.
  intros Hready.
  destruct (AutoDetect_account w Hready)
    as (err & evs & w' & Hrun & _ & _ & _ & Hframe & _).
  exists err, w'. split; [exact Hrun|].
  rewrite Hframe. destruct (config w). repeat split.
Qed.

(** X7. A pass that returns an error has not written the autoscaling
    version: [AutoscalingVersion] returns afterwards what it returned
    before. *)
Theorem AutoDetect_error_leaves_the_version_alone (w : World Env) :
  Ready ad w ->
  exists err w',
    AutoDetect w = Done (err, w') /\
    (err <> None ->
     AutoscalingVersion (config w') = AutoscalingVersion (config w)).
Proof.
  intros Hready.
  destruct (AutoDetect_account w Hready)
    as (err & evs & w' & Hrun & _ & _ & _ & _ & Hversion & _).
  exists err, w'. split; assumption.
Qed.

(** X8. After a pass whose [OpenShiftRoutesAvailability] call succeeded
    with [ora], the accessor [OpenShiftRoutes] returns [ora], whatever
    the store held before and whatever [HPAVersion] answered; reading
    leaves the [Config] as it is. *)
Theorem OpenShiftRoutes_after_a_pass_returns_the_probed_value
  (w : World Env) (ora : autodetect.OpenShiftRoutesAvailability) :
  Ready ad w ->
  fst (autodetect.AutoDetect.OpenShiftRoutesAvailability ad (env w)) = Ok ora ->
  exists err w' w'',
    AutoDetect w = Done (err, w') /\
    OpenShiftRoutes w' = Done (ora, w'') /\
    config w'' = config w'.
Proof.
  intros Hready Hora.
  destruct (AutoDetect_account w Hready)
    as (err & evs & w' & Hrun & _ & Hready' & _ & _ & _ & _ & _ & _ & _ & _
        & Hstore).
  exists err, w'. eexists. split; [exact Hrun|].
  rewrite OpenShiftRoutes_free by apply Hready'.
  rewrite (Hstore ora Hora). split; reflexivity.
Qed.

(** X9. A pass makes at most one [Set] and at most one [Do], as many of
    the one as of the other, and it makes them exactly when the value
    in the store after the pass differs from the value before. *)
Theorem AutoDetect_notifies_exactly_when_the_store_changes
  (w : World Env) :
  Ready ad w ->
  exists err evs w',
    AutoDetect w = Done (err, w') /\
    trace w' = trace w ++ evs /\
    count_events is_EvSet evs = count_events is_EvDo evs /\
    count_events is_EvDo evs <= 1 /\
    (count_events is_EvDo evs = 1 <->
     current (openshiftRoutes (config w')) <>
       current (openshiftRoutes (config w))).
Proof.
  intros Hready.
  destruct (AutoDetect_account w Hready)
    as (err & evs & w' & Hrun & Htrace & _ & _ & _ & _ & Hsets & Hdo & _).
  exists err, evs, w'. repeat split; try assumption.
  - rewrite Hdo.
    destruct (autodetect.OpenShiftRoutesAvailability_eq_dec _ _); lia.
  - rewrite Hdo.
    destruct (autodetect.OpenShiftRoutesAvailability_eq_dec _ _) as [Heq|Hne];
      [discriminate|intros _; exact Hne].
  - rewrite Hdo.
    destruct (autodetect.OpenShiftRoutesAvailability_eq_dec _ _) as [Heq|Hne];
      [intros Hne; contradiction|reflexivity].
Qed.

(** X10. Notification is for transitions only: when two passes in a row
    both get the answer [ora] from [OpenShiftRoutesAvailability], the
    second makes no [Set], does not call [Do], runs no callback and
    leaves the store as the first left it. *)
Theorem second_AutoDetect_with_the_same_answer_is_quiet
  (w : World Env) (ora : autodetect.OpenShiftRoutesAvailability) :
  Ready ad w ->
  fst (autodetect.AutoDetect.OpenShiftRoutesAvailability ad (env w)) = Ok ora ->
  exists err1 w1,
    AutoDetect w = Done (err1, w1) /\
    (fst (autodetect.AutoDetect.OpenShiftRoutesAvailability ad (env w1)) = Ok ora ->
     exists err2 evs2 w2,
       AutoDetect w1 = Done (err2, w2) /\
       trace w2 = trace w1 ++ evs2 /\
       existsb is_change_event evs2 = false /\
       openshiftRoutes (config w2) = openshiftRoutes (config w1)).
Proof.
  intros Hready Hora.
  destruct (AutoDetect_account w Hready)
    as (err1 & evs1 & w1 & Hrun1 & _ & Hready1 & _ & _ & _ & _ & _ & _ & _ & _
        & Hstore).
  exists err1, w1. split; [exact Hrun1|].
  intros Hagain.
  pose proof (Hstore ora Hora) as Hcur.
  destruct (autodetect.AutoDetect.OpenShiftRoutesAvailability ad (env w1))
    as [r1 e1] eqn:Hroutes.
  cbn in Hagain. subst r1. rewrite <- Hcur in Hroutes.
  destruct (autodetect.AutoDetect.HPAVersion ad e1) as [r e2] eqn:Hhpa.
  rewrite (AutoDetect_steady ad w1 e1 r e2 Hready1 Hroutes Hhpa).
  do 3 eexists. split; [reflexivity|]. split; [reflexivity|].
  split; destruct r, w1 as [c k t g]; destruct c; reflexivity.
Qed.

End MorePass.

(** ** Starting, and the loop *)

Section MoreLoop.

Context {Env : Type}.
Variable ad : autodetect.AutoDetect.t Env.

Lemma Ready_go (g : Goroutine) (w : World Env) :
  Ready ad w ->
  Ready ad
    {| config := config w; env := env w; trace := trace w;
       goroutines := goroutines w ++ [g] |}.
Proof.
  exact (fun H => H).
Qed.

Lemma Ready_logged (ev : Event) (w : World Env) :
  Ready ad w ->
  Ready ad
    {| config := config w; env := env w; trace := trace w ++ [ev];
       goroutines := goroutines w |}.
Proof.
  exact (fun H => H).
Qed.

(** The account of the first [ticks] rounds of the loop. *)
Lemma periodicAutoDetect_loop_account (ticks : nat) :
  forall w : World Env,
    Ready ad w ->
    exists evs w',
      periodicAutoDetect_loop ticks w = Done (tt, w') /\
      trace w' = trace w ++ evs /\
      Ready ad w' /\
      goroutines w' = goroutines w /\
      count_events is_routes_call evs = ticks /\
      count_events is_failure_log evs =
        count_events is_failed_probe_call evs.
Proof.
  induction ticks as [|n IH]; intros w Hready.
  - exists [], w. split; [reflexivity|].
    split; [symmetry; apply app_nil_r|]. repeat split; apply Hready.
  - cbn [periodicAutoDetect_loop].
    destruct (AutoDetect_account ad w Hready)
      as (err & evs1 & w1 & Hrun & Htrace1 & Hready1 & Hgo1 & _ & _ & _ & _
          & Hlogs & Hfailed & Hroutes & _).
    unfold bind at 1. rewrite Hrun.
    destruct err as [err|].
    + unfold bind at 1. unfold logger_Info, logger_V_Info, bind, gets, emit,
        modify. cbn.
      match goal with
      | |- context [periodicAutoDetect_loop n ?w2] =>
          destruct (IH w2)
            as (evs' & w' & Hloop & Htrace' & Hready' & Hgo' & Hcount & Hlog')
      end.
      { apply Ready_logged, Hready1. }
      cbn in Htrace', Hgo'.
      eexists. exists w'. split; [exact Hloop|]. split.
      { rewrite Htrace', Htrace1. rewrite <- !app_assoc. reflexivity. }
      split; [exact Hready'|]. split; [congruence|].
      rewrite !count_events_app.
      rewrite Hroutes, Hcount, Hlogs, Hfailed, Hlog'. cbn. split; lia.
    + unfold bind at 1. cbn.
      destruct (IH w1 Hready1)
        as (evs' & w' & Hloop & Htrace' & Hready' & Hgo' & Hcount & Hlog').
      exists (evs1 ++ evs'), w'. split; [exact Hloop|]. split.
      { rewrite Htrace', Htrace1. rewrite <- app_assoc. reflexivity. }
      split; [exact Hready'|]. split; [congruence|].
      rewrite !count_events_app.
      rewrite Hroutes, Hcount, Hlogs, Hfailed, Hlog'. split; lia.
Qed.

(** The first [ticks] rounds of the loop leave the frequency as it
    was. *)
Lemma periodicAutoDetect_loop_keeps_going (ticks : nat) :
  forall w : World Env,
    Ready ad w ->
    exists evs w',
      periodicAutoDetect_loop ticks w = Done (tt, w') /\
      trace w' = trace w ++ evs /\
      Ready ad w' /\
      count_events is_routes_call evs = ticks /\
      autoDetectFrequency (config w') = autoDetectFrequency (config w).
Proof.
  induction ticks as [|n IH]; intros w Hready.
  - exists [], w. split; [reflexivity|].
    split; [symmetry; apply app_nil_r|]. repeat split; apply Hready.
  - cbn [periodicAutoDetect_loop].
    destruct (AutoDetect_account ad w Hready)
      as (err & evs1 & w1 & Hrun & Htrace1 & Hready1 & _ & Hframe & _ & _ & _
          & _ & _ & Hroutes & _).
    assert (Hfrequency : autoDetectFrequency (config w1) =
                         autoDetectFrequency (config w))
      by (rewrite Hframe; destruct (config w); reflexivity).
    unfold bind at 1. rewrite Hrun.
    destruct err as [err|].
    + unfold bind at 1. unfold logger_Info, logger_V_Info, bind, gets, emit,
        modify. cbn.
      match goal with
      | |- context [periodicAutoDetect_loop n ?w2] =>
          destruct (IH w2)
            as (evs' & w' & Hloop & Htrace' & Hready' & Hcount & Hfrequency')
      end.
      { apply Ready_logged, Hready1. }
      cbn in Htrace', Hfrequency'.
      eexists. exists w'. split; [exact Hloop|]. split.
      { rewrite Htrace', Htrace1. rewrite <- !app_assoc. reflexivity. }
      split; [exact Hready'|].
      rewrite !count_events_app. rewrite Hroutes, Hcount. cbn.
      split; [lia|congruence].
    + unfold bind at 1. cbn.
      destruct (IH w1 Hready1)
        as (evs' & w' & Hloop & Htrace' & Hready' & Hcount & Hfrequency').
      exists (evs1 ++ evs'), w'. split; [exact Hloop|]. split.
      { rewrite Htrace', Htrace1. rewrite <- app_assoc. reflexivity. }
      split; [exact Hready'|].
      rewrite !count_events_app. rewrite Hroutes, Hcount.
      split; [lia|congruence].
Qed.

(** X11. [StartAutoDetect] keeps no record of having been called. Of
    two calls in a row, each runs a pass of its own - with its own
    [OpenShiftRoutesAvailability] call, and returning the error of that
    pass - and each executes its [go] statement on the world its pass
    left, so that two goroutines have been started. With a positive
    frequency both of them are loops that make passes: run for [n] and
    for [m] ticks they make [n + m] more passes. *)
Theorem StartAutoDetect_twice_starts_two_loops (w : World Env) :
  Ready ad w ->
  exists err1 evs1 p1 err2 evs2 p2,
    AutoDetect w = Done (err1, p1) /\
    StartAutoDetect w = Done (err1, started p1) /\
    trace p1 = trace w ++ evs1 /\
    count_events is_routes_call evs1 = 1 /\
    AutoDetect (started p1) = Done (err2, p2) /\
    StartAutoDetect (started p1) = Done (err2, started p2) /\
    trace p2 = trace p1 ++ evs2 /\
    count_events is_routes_call evs2 = 1 /\
    goroutines (started p2) =
      goroutines w ++ [GoPeriodicAutoDetect; GoPeriodicAutoDetect] /\
    ((0 < autoDetectFrequency (config w))%Z ->
     forall (g1 g2 : Goroutine) (n m : nat),
       goroutines (started p2) = goroutines w ++ [g1; g2] ->
       exists w3 w4 evs,
         run_goroutine g1 n (started p2) = Done (tt, w3) /\
         run_goroutine g2 m w3 = Done (tt, w4) /\
         trace w4 = trace p2 ++ evs /\
         count_events is_routes_call evs = n + m).
Proof.
  intros Hready.
  destruct (AutoDetect_account ad w Hready)
    as (err1 & evs1 & p1 & Hrun1 & Htrace1 & Hready1 & Hgo1 & Hframe1 & _ & _
        & _ & _ & _ & Hroutes1 & _).
  pose proof (Ready_go GoPeriodicAutoDetect p1 Hready1) as Hstarted1.
  change (Ready ad (started p1)) in Hstarted1.
  destruct (AutoDetect_account ad (started p1) Hstarted1)
    as (err2 & evs2 & p2 & Hrun2 & Htrace2 & Hready2 & Hgo2 & Hframe2 & _ & _
        & _ & _ & _ & Hroutes2 & _).
  pose proof (Ready_go GoPeriodicAutoDetect p2 Hready2) as Hstarted2.
  change (Ready ad (started p2)) in Hstarted2.
  assert (Hlist : goroutines (started p2) =
                  goroutines w ++
                  [GoPeriodicAutoDetect; GoPeriodicAutoDetect]).
  { cbn. rewrite Hgo2. cbn. rewrite Hgo1, <- app_assoc. reflexivity. }
  assert (Hfrequency : autoDetectFrequency (config (started p2)) =
                       autoDetectFrequency (config w)).
  { cbn. rewrite Hframe2. cbn. rewrite Hframe1.
    destruct (config w), (config p1), (config p2); reflexivity. }
  exists err1, evs1, p1, err2, evs2, p2.
  split; [exact Hrun1|].
  split; [unfold StartAutoDetect, bind, go, modify, ret; rewrite Hrun1;
          reflexivity|].
  split; [exact Htrace1|]. split; [exact Hroutes1|].
  split; [exact Hrun2|].
  split; [unfold StartAutoDetect, bind, go, modify, ret; rewrite Hrun2;
          reflexivity|].
  split; [exact Htrace2|]. split; [exact Hroutes2|].
  split; [exact Hlist|].
  intros Hpos g1 g2 n m Htwo.
  rewrite Hlist in Htwo. apply app_inv_head in Htwo.
  injection Htwo as <- <-.
  destruct (periodicAutoDetect_loop_keeps_going n (started p2) Hstarted2)
    as (evs3 & w3 & Hloop3 & Htrace3 & Hready3 & Hcount3 & Hfrequency3).
  destruct (periodicAutoDetect_loop_keeps_going m w3 Hready3)
    as (evs4 & w4 & Hloop4 & Htrace4 & _ & Hcount4 & _).
  assert (Hpos2 : (0 <? autoDetectFrequency (config (started p2)))%Z = true)
    by (apply Z.ltb_lt; rewrite Hfrequency; exact Hpos).
  assert (Hpos3 : (0 <? autoDetectFrequency (config w3))%Z = true)
    by (rewrite Hfrequency3; exact Hpos2).
  exists w3, w4, (evs3 ++ evs4).
  split.
  { unfold run_goroutine, periodicAutoDetect, time_NewTicker, bind, gets.
    rewrite Hpos2. exact Hloop3. }
  split.
  { unfold run_goroutine, periodicAutoDetect, time_NewTicker, bind, gets.
    rewrite Hpos3. exact Hloop4. }
  split.
  { rewrite Htrace4, Htrace3. cbn. rewrite <- app_assoc. reflexivity. }
  rewrite count_events_app, Hcount3, Hcount4. reflexivity.
Qed.

(** X13. Errors do not stop the loop: with a positive frequency, after
    [ticks] ticks [periodicAutoDetect] has run [ticks] passes, each with
    one [OpenShiftRoutesAvailability] call, whatever those passes
    returned; it has started no goroutine and the next pass can run. *)
Theorem periodicAutoDetect_runs_one_pass_per_tick
  (ticks : nat) (w : World Env) :
  Ready ad w ->
  (0 < autoDetectFrequency (config w))%Z ->
  exists evs w',
    periodicAutoDetect ticks w = Done (tt, w') /\
    trace w' = trace w ++ evs /\
    count_events is_routes_call evs = ticks /\
    Ready ad w' /\
    goroutines w' = goroutines w.
Proof.
  intros Hready Hpos.
  unfold periodicAutoDetect, time_NewTicker, bind, gets.
  apply Z.ltb_lt in Hpos. rewrite Hpos. cbn.
  destruct (periodicAutoDetect_loop_account ticks w Hready)
    as (evs & w' & Hloop & Htrace & Hready' & Hgo & Hcount & _).
  exists evs, w'. repeat split; try assumption; apply Hready'.
Qed.

(** X14. The loop reports every failure and nothing else: in its
    history the records "auto-detection failed" are as many as the calls
    on the probe that returned an error. *)
Theorem periodicAutoDetect_logs_each_failed_pass_once
  (ticks : nat) (w : World Env) :
  Ready ad w ->
  (0 < autoDetectFrequency (config w))%Z ->
  exists evs w',
    periodicAutoDetect ticks w = Done (tt, w') /\
    trace w' = trace w ++ evs /\
    count_events is_failure_log evs =
      count_events is_failed_probe_call evs.
Proof.
  intros Hready Hpos.
  unfold periodicAutoDetect, time_NewTicker, bind, gets.
  apply Z.ltb_lt in Hpos. rewrite Hpos. cbn.
  destruct (periodicAutoDetect_loop_account ticks w Hready)
    as (evs & w' & Hloop & Htrace & _ & _ & _ & Hlogs).
  exists evs, w'. repeat split; assumption.
Qed.

(** X15. The frequency decides whether the loop starts at all: with a
    probe configured and the store free, [periodicAutoDetect] panics
    exactly when [autoDetectFrequency] is zero or negative, for then the
    ticker cannot be made. *)
Theorem periodicAutoDetect_panics_iff_frequency_not_positive
  (ticks : nat) (w : World Env) :
  Ready ad w ->
  (periodicAutoDetect ticks w = Panicked <->
   (autoDetectFrequency (config w) <= 0)%Z).
Proof.
  intros Hready. split.
  - intros Hpanic.
    destruct (Z.ltb_spec 0 (autoDetectFrequency (config w))) as [Hpos|Hneg];
      [|exact Hneg].
    exfalso. revert Hpanic.
    unfold periodicAutoDetect, time_NewTicker, bind, gets.
    apply Z.ltb_lt in Hpos. rewrite Hpos. cbn.
    destruct (periodicAutoDetect_loop_account ticks w Hready)
      as (evs & w' & Hloop & _).
    rewrite Hloop. discriminate.
  - apply periodicAutoDetect_needs_positive_frequency.
Qed.

(** With a probe whose routes answer is always [ora], the loop calls
    [Do] in its first pass if the store holds another value, and never
    again. *)
Lemma periodicAutoDetect_loop_constant_answer
  (ora : autodetect.OpenShiftRoutesAvailability) :
  (forall e, fst (autodetect.AutoDetect.OpenShiftRoutesAvailability ad e) = Ok ora) ->
  forall (ticks : nat) (w : World Env),
    Ready ad w ->
    exists evs w',
      periodicAutoDetect_loop ticks w = Done (tt, w') /\
      trace w' = trace w ++ evs /\
      current (openshiftRoutes (config w')) =
        match ticks with
        | O => current (openshiftRoutes (config w))
        | S _ => ora
        end /\
      count_events is_EvDo evs =
        match ticks with
        | O => 0
        | S _ =>
            if autodetect.OpenShiftRoutesAvailability_eq_dec
                 (current (openshiftRoutes (config w))) ora
            then 0 else 1
        end.
Proof.
  intros Halways.
  induction ticks as [|n IH]; intros w Hready.
  - exists [], w. split; [reflexivity|].
    split; [symmetry; apply app_nil_r|]. split; reflexivity.
  - cbn [periodicAutoDetect_loop].
    destruct (AutoDetect_account ad w Hready)
      as (err & evs1 & w1 & Hrun & Htrace1 & Hready1 & _ & _ & _ & _ & Hdo
          & _ & _ & _ & Hstore).
    pose proof (Hstore ora (Halways (env w))) as Hcur1.
    rewrite Hcur1 in Hdo.
    assert (Hdo1 : count_events is_EvDo evs1 =
                   if autodetect.OpenShiftRoutesAvailability_eq_dec
                        (current (openshiftRoutes (config w))) ora
                   then 0 else 1).
    { rewrite Hdo.
      destruct (autodetect.OpenShiftRoutesAvailability_eq_dec ora _),
        (autodetect.OpenShiftRoutesAvailability_eq_dec _ ora);
        congruence. }
    assert (Hrest : forall (w2 : World Env) (evs' : list Event)
                      (w' : World Env),
               current (openshiftRoutes (config w2)) = ora ->
               current (openshiftRoutes (config w')) =
                 match n with
                 | O => current (openshiftRoutes (config w2))
                 | S _ => ora
                 end ->
               count_events is_EvDo evs' =
                 match n with
                 | O => 0
                 | S _ =>
                     if autodetect.OpenShiftRoutesAvailability_eq_dec
                          (current (openshiftRoutes (config w2))) ora
                     then 0 else 1
                 end ->
               current (openshiftRoutes (config w')) = ora /\
               count_events is_EvDo evs' = 0).
    { intros w2 evs' w' Hcur2 Hcur' Hdo'. rewrite Hcur2 in *.
      destruct n; [split; assumption|].
      destruct (autodetect.OpenShiftRoutesAvailability_eq_dec ora ora);
        [split; assumption|congruence]. }
    unfold bind at 1. rewrite Hrun.
    destruct err as [err|].
    + unfold bind at 1. unfold logger_Info, logger_V_Info, bind, gets, emit,
        modify. cbn.
      match goal with
      | |- context [periodicAutoDetect_loop n ?w2] =>
          destruct (IH w2) as (evs' & w' & Hloop & Htrace' & Hcur' & Hdo')
      end.
      { apply Ready_logged, Hready1. }
      cbn in Htrace'.
      destruct (Hrest _ evs' w' Hcur1 Hcur' Hdo') as [Hend Hnone].
      eexists. exists w'. split; [exact Hloop|]. split.
      { rewrite Htrace', Htrace1. rewrite <- !app_assoc. reflexivity. }
      split; [exact Hend|].
      rewrite !count_events_app. rewrite Hdo1, Hnone. cbn. lia.
    + unfold bind at 1. cbn.
      destruct (IH w1 Hready1) as (evs' & w' & Hloop & Htrace' & Hcur' & Hdo').
      destruct (Hrest _ evs' w' Hcur1 Hcur' Hdo') as [Hend Hnone].
      exists (evs1 ++ evs'), w'. split; [exact Hloop|]. split.
      { rewrite Htrace', Htrace1. rewrite <- app_assoc. reflexivity. }
      split; [exact Hend|].
      rewrite count_events_app. rewrite Hdo1, Hnone. lia.
Qed.

(** X16. Over the whole life of the loop a change is notified once: with
    a probe whose [OpenShiftRoutesAvailability] always answers [ora],
    however many ticks go by, [Do] is called at most once, and not at
    all when the store held [ora] from the start. *)
Theorem periodicAutoDetect_notifies_a_lasting_change_once
  (ora : autodetect.OpenShiftRoutesAvailability)
  (ticks : nat) (w : World Env) :
  (forall e, fst (autodetect.AutoDetect.OpenShiftRoutesAvailability ad e) = Ok ora) ->
  Ready ad w ->
  (0 < autoDetectFrequency (config w))%Z ->
  exists evs w',
    periodicAutoDetect ticks w = Done (tt, w') /\
    trace w' = trace w ++ evs /\
    count_events is_EvDo evs <= 1 /\
    (current (openshiftRoutes (config w)) = ora ->
     count_events is_EvDo evs = 0) /\
    (0 < ticks -> current (openshiftRoutes (config w')) = ora).
Proof.
  intros Halways Hready Hpos.
  unfold periodicAutoDetect, time_NewTicker, bind, gets.
  apply Z.ltb_lt in Hpos. rewrite Hpos. cbn.
  destruct (periodicAutoDetect_loop_constant_answer ora Halways ticks w Hready)
    as (evs & w' & Hloop & Htrace & Hcur & Hdo).
  exists evs, w'. split; [exact Hloop|]. split; [exact Htrace|].
  rewrite Hdo. destruct ticks as [|n].
  - repeat split; try lia.
  - destruct (autodetect.OpenShiftRoutesAvailability_eq_dec _ ora);
      repeat split; try lia; try congruence.
Qed.

End MoreLoop.

(** ** An operator made without a probe *)

Section MoreNew.

Context {Env Version : Type}.
Variable version_Get : Version.
Variable DefaultAutoscalingVersion : autodetect.AutoscalingVersion.

Lemma apply_options_leave_autoDetect (opts : list (Option Env Version)) :
  Forall leaves_autoDetect opts ->
  forall o : options Env Version,
    o_autoDetect (apply_options opts o) = o_autoDetect o.
Proof.
  induction 1 as [|opt rest Hopt _ IH]; intros o.
  - reflexivity.
  - change (apply_options (opt :: rest) o)
      with (apply_options rest (opt o)).
    rewrite IH. apply Hopt.
Qed.

(** X12. [New] gives no default to the probe: when none of the options
    configures one, the [Config] it returns has a nil [autoDetect], and
    on that [Config] both [AutoDetect] and [StartAutoDetect] panic
    instead of returning, whatever the environment. *)
Theorem New_without_a_probe_panics_on_detection
  (opts : list (Option Env Version))
  (k : Env) (t : list Event) (g : list Goroutine) :
  Forall leaves_autoDetect opts ->
  autoDetect (New version_Get DefaultAutoscalingVersion opts) = None /\
  AutoDetect
    {| config := New version_Get DefaultAutoscalingVersion opts;
       env := k; trace := t; goroutines := g |} = Panicked /\
  StartAutoDetect
    {| config := New version_Get DefaultAutoscalingVersion opts;
       env := k; trace := t; goroutines := g |} = Panicked.
Proof.
  intros Hleave.
  assert (Hnil : autoDetect (New version_Get DefaultAutoscalingVersion opts)
                 = None).
  { exact (apply_options_leave_autoDetect opts Hleave
             (default_options version_Get DefaultAutoscalingVersion)). }
  split; [exact Hnil|].
  assert (Hpanic : AutoDetect
            {| config := New version_Get DefaultAutoscalingVersion opts;
               env := k; trace := t; goroutines := g |} = Panicked)
    by (apply AutoDetect_without_probe_panics; exact Hnil).
  split; [exact Hpanic|].
  unfold StartAutoDetect, bind. rewrite Hpanic. reflexivity.
Qed.

End MoreNew.

(** * More runs *)

(** Three [Get]s around two [Set]s on a new store. *)
Lemma Get_only_returns_values_that_were_set_witness :
  sync.locked (mu newOpenShiftRoutesWrapper) = false /\
  exists seen p',
    run_calls
      [CallGet; CallSet autodetect.OpenShiftRoutesAvailable; CallGet;
       CallSet autodetect.OpenShiftRoutesUnknown; CallGet]
      newOpenShiftRoutesWrapper = Done (seen, p') /\
    forall x,
      In x seen ->
      x = autodetect.OpenShiftRoutesNotAvailable \/
      In (CallSet x)
        [CallGet; CallSet autodetect.OpenShiftRoutesAvailable; CallGet;
         CallSet autodetect.OpenShiftRoutesUnknown; CallGet].
Proof.
  split; [reflexivity|].
  exact (Get_only_returns_values_that_were_set
           [CallGet; CallSet autodetect.OpenShiftRoutesAvailable; CallGet;
            CallSet autodetect.OpenShiftRoutesUnknown; CallGet]
           newOpenShiftRoutesWrapper eq_refl).
Defined.

(** The same calls: three results, and the mutex is free at the end. *)
Lemma store_calls_leave_the_mutex_free_witness :
  sync.locked (mu newOpenShiftRoutesWrapper) = false /\
  exists seen p',
    run_calls
      [CallGet; CallSet autodetect.OpenShiftRoutesAvailable; CallGet;
       CallSet autodetect.OpenShiftRoutesUnknown; CallGet]
      newOpenShiftRoutesWrapper = Done (seen, p') /\
    sync.locked (mu p') = false /\
    List.length seen = 3.
Proof.
  split; [reflexivity|].
  exact (store_calls_leave_the_mutex_free
           [CallGet; CallSet autodetect.OpenShiftRoutesAvailable; CallGet;
            CallSet autodetect.OpenShiftRoutesUnknown; CallGet]
           newOpenShiftRoutesWrapper eq_refl).
Defined.

(** The same calls, and the two [Set]s alone. *)
Lemma Gets_leave_the_store_alone_witness :
  sync.locked (mu newOpenShiftRoutesWrapper) = false /\
  exists seen p',
    run_calls
      [CallGet; CallSet autodetect.OpenShiftRoutesAvailable; CallGet;
       CallSet autodetect.OpenShiftRoutesUnknown; CallGet]
      newOpenShiftRoutesWrapper = Done (seen, p') /\
    run_calls
      [CallSet autodetect.OpenShiftRoutesAvailable;
       CallSet autodetect.OpenShiftRoutesUnknown]
      newOpenShiftRoutesWrapper = Done ([], p').
Proof.
  split; [reflexivity|].
  exact (Gets_leave_the_store_alone
           [CallGet; CallSet autodetect.OpenShiftRoutesAvailable; CallGet;
            CallSet autodetect.OpenShiftRoutesUnknown; CallGet]
           newOpenShiftRoutesWrapper eq_refl).
Defined.

(** Somebody holds the mutex: the pass on the cluster without routes
    discovery returns, the pass on the cluster with routes waits. *)
Lemma AutoDetect_needs_the_store_only_after_the_routes_call_witness :
  autoDetect (config (Cases.held Scenario.routes_down)) = Some Scenario.probe /\
  sync.locked
    (mu (openshiftRoutes (config (Cases.held Scenario.routes_down)))) = true /\
  (exists w',
     AutoDetect (Cases.held Scenario.routes_down) =
       Done (Some "routes discovery failed", w')) /\
  AutoDetect (Cases.held Scenario.upgrade) = Blocked.
Proof.
  split; [reflexivity|]. split; [reflexivity|]. split.
  - destruct (AutoDetect_needs_the_store_only_after_the_routes_call
                Scenario.probe (Cases.held Scenario.routes_down)
                eq_refl eq_refl) as [Hfails _].
    destruct (Hfails "routes discovery failed" eq_refl) as (w' & Hrun & _).
    exists w'. exact Hrun.
  - destruct (AutoDetect_needs_the_store_only_after_the_routes_call
                Scenario.probe (Cases.held Scenario.upgrade)
                eq_refl eq_refl) as [_ Hwaits].
    exact (Hwaits autodetect.OpenShiftRoutesAvailable eq_refl).
Defined.

(** The pass that stores, notifies and meets a failing callback. *)
Lemma AutoDetect_leaves_the_world_ready_for_the_next_pass_witness :
  Ready Scenario.probe Scenario.upgrade /\
  exists err evs w',
    AutoDetect Scenario.upgrade = Done (err, w') /\
    Ready Scenario.probe w' /\
    goroutines w' = [] /\
    trace w' = evs.
Proof.
  split; [apply Scenario_Ready|].
  exact (AutoDetect_leaves_the_world_ready_for_the_next_pass
           Scenario.probe Scenario.upgrade (Scenario_Ready _)).
Defined.

(** The same pass: the settings are those [New] gave. *)
Lemma AutoDetect_leaves_the_static_settings_alone_witness :
  Ready Scenario.probe Scenario.upgrade /\
  exists err w',
    AutoDetect Scenario.upgrade = Done (err, w') /\
    static_settings (config w') = (["" ; ""; ""; ""; ""; ""; ""], []) /\
    autoDetectFrequency (config w') = 5000000000%Z.
Proof.
  split; [apply Scenario_Ready|].
  destruct (AutoDetect_leaves_the_static_settings_alone
              Scenario.probe Scenario.upgrade (Scenario_Ready _))
    as (err & w' & Hrun & Hstatic & _ & Hfrequency & _).
  exists err, w'. rewrite Hstatic, Hfrequency. repeat split. exact Hrun.
Defined.

(** The routes query fails: the version is still V2. *)
Lemma AutoDetect_error_leaves_the_version_alone_witness :
  Ready Scenario.probe Scenario.routes_down /\
  exists w',
    AutoDetect Scenario.routes_down =
      Done (Some "routes discovery failed", w') /\
    AutoscalingVersion (config w') = autodetect.AutoscalingVersionV2.
Proof.
  split; [apply Scenario_Ready|].
  destruct (AutoDetect_error_leaves_the_version_alone
              Scenario.probe Scenario.routes_down (Scenario_Ready _))
    as (err & w' & Hrun & Hversion).
  assert (Herr : err = Some "routes discovery failed").
  { rewrite (AutoDetect_routes_failed Scenario.probe Scenario.routes_down
               "routes discovery failed" (env Scenario.routes_down)
               (Scenario_Ready _) eq_refl) in Hrun.
    injection Hrun as <- _. reflexivity. }
  subst err. exists w'. split; [exact Hrun|].
  rewrite Hversion by discriminate. reflexivity.
Defined.

(** The routes are found and the autoscaling query fails: the accessor
    returns Available. *)
Lemma OpenShiftRoutes_after_a_pass_returns_the_probed_value_witness :
  Ready Scenario.probe Scenario.hpa_down /\
  fst (autodetect.AutoDetect.OpenShiftRoutesAvailability Scenario.probe
         (env Scenario.hpa_down)) = Ok autodetect.OpenShiftRoutesAvailable /\
  exists err w' w'',
    AutoDetect Scenario.hpa_down = Done (err, w') /\
    OpenShiftRoutes w' = Done (autodetect.OpenShiftRoutesAvailable, w'') /\
    config w'' = config w'.
Proof.
  split; [apply Scenario_Ready|]. split; [reflexivity|].
  exact (OpenShiftRoutes_after_a_pass_returns_the_probed_value
           Scenario.probe Scenario.hpa_down autodetect.OpenShiftRoutesAvailable
           (Scenario_Ready _) eq_refl).
Defined.

(** The pass on the operator whose probe always finds the routes: one
    [Set] and one [Do]. *)
Lemma AutoDetect_notifies_exactly_when_the_store_changes_witness :
  Ready
    (Cases.always autodetect.OpenShiftRoutesAvailable
       autodetect.AutoscalingVersionV1) Cases.settled /\
  exists err evs w',
    AutoDetect Cases.settled = Done (err, w') /\
    count_events is_EvSet evs = 1 /\
    count_events is_EvDo evs = 1.
Proof.
  assert (Hready : Ready
            (Cases.always autodetect.OpenShiftRoutesAvailable
               autodetect.AutoscalingVersionV1) Cases.settled)
    by (split; reflexivity).
  split; [exact Hready|].
  destruct (AutoDetect_notifies_exactly_when_the_store_changes
              _ Cases.settled Hready)
    as (err & evs & w' & Hrun & _ & Hsets & _ & Hiff).
  assert (Hchanged : current (openshiftRoutes (config w')) <>
                     current (openshiftRoutes (config Cases.settled))).
  { rewrite (AutoDetect_changed _ Cases.settled
               autodetect.OpenShiftRoutesAvailable (env Cases.settled)
               (Ok autodetect.AutoscalingVersionV1)
               (Scenario.write "changed" (env Cases.settled))
               Hready eq_refl) in Hrun.
    - injection Hrun as _ <-. discriminate.
    - discriminate.
    - reflexivity. }
  apply Hiff in Hchanged.
  exists err, evs, w'. rewrite Hsets, Hchanged. repeat split. exact Hrun.
Defined.

(** Two passes in a row on that operator. *)
Lemma second_AutoDetect_with_the_same_answer_is_quiet_witness :
  Ready
    (Cases.always autodetect.OpenShiftRoutesAvailable
       autodetect.AutoscalingVersionV1) Cases.settled /\
  exists err1 w1 err2 evs2 w2,
    AutoDetect Cases.settled = Done (err1, w1) /\
    AutoDetect w1 = Done (err2, w2) /\
    trace w2 = trace w1 ++ evs2 /\
    existsb is_change_event evs2 = false.
Proof.
  assert (Hready : Ready
            (Cases.always autodetect.OpenShiftRoutesAvailable
               autodetect.AutoscalingVersionV1) Cases.settled)
    by (split; reflexivity).
  split; [exact Hready|].
  destruct (second_AutoDetect_with_the_same_answer_is_quiet
              _ Cases.settled autodetect.OpenShiftRoutesAvailable
              Hready eq_refl)
    as (err1 & w1 & Hrun1 & Hsecond).
  destruct (Hsecond eq_refl) as (err2 & evs2 & w2 & Hrun2 & Htrace & Hquiet & _).
  exists err1, w1, err2, evs2, w2. repeat split; assumption.
Defined.

(** Two calls of [StartAutoDetect] on the cluster without routes
    discovery: two failing passes, two loops, and five more passes when
    the loops run for two and for three ticks. *)
Lemma StartAutoDetect_twice_starts_two_loops_witness :
  Ready Scenario.probe Scenario.routes_down /\
  (0 < autoDetectFrequency (config Scenario.routes_down))%Z /\
  exists err1 w1 err2 w2 w3 w4 evs,
    StartAutoDetect Scenario.routes_down = Done (err1, w1) /\
    StartAutoDetect w1 = Done (err2, w2) /\
    goroutines w2 = [GoPeriodicAutoDetect; GoPeriodicAutoDetect] /\
    count_events is_routes_call (trace w2) = 2 /\
    run_goroutine GoPeriodicAutoDetect 2 w2 = Done (tt, w3) /\
    run_goroutine GoPeriodicAutoDetect 3 w3 = Done (tt, w4) /\
    trace w4 = trace w2 ++ evs /\
    count_events is_routes_call evs = 5.
Proof.
  split; [apply Scenario_Ready|]. split; [reflexivity|].
  destruct (StartAutoDetect_twice_starts_two_loops
              Scenario.probe Scenario.routes_down (Scenario_Ready _))
    as (err1 & evs1 & p1 & err2 & evs2 & p2 & _ & Hstart1 & Htrace1 & Hcount1
        & _ & Hstart2 & Htrace2 & Hcount2 & Hlist & Hloops).
  destruct (Hloops eq_refl GoPeriodicAutoDetect GoPeriodicAutoDetect 2 3 Hlist)
    as (w3 & w4 & evs & Hrun3 & Hrun4 & Htrace4 & Hcount4).
  exists err1, (started p1), err2, (started p2), w3, w4, evs.
  split; [exact Hstart1|]. split; [exact Hstart2|].
  split; [exact Hlist|].
  split.
  { change (trace (started p2)) with (trace p2).
    rewrite Htrace2, Htrace1.
    change (trace Scenario.routes_down) with (@nil Event).
    rewrite app_nil_l, count_events_app, Hcount1, Hcount2. reflexivity. }
  split; [exact Hrun3|]. split; [exact Hrun4|].
  split; [exact Htrace4|exact Hcount4].
Defined.

(** An operator made with an option for the frequency and none for the
    probe. *)
Lemma New_without_a_probe_panics_on_detection_witness :
  Forall leaves_autoDetect
    [Cases.with_autoDetectFrequency (2 * time.Second)%Z] /\
  AutoDetect Cases.unprobed = Panicked /\
  StartAutoDetect Cases.unprobed = Panicked.
Proof.
  assert (Hleave : Forall leaves_autoDetect
                     [Cases.with_autoDetectFrequency (2 * time.Second)%Z]).
  { constructor; [|constructor]. intros o. reflexivity. }
  split; [exact Hleave|].
  destruct (New_without_a_probe_panics_on_detection
              "v0" autodetect.AutoscalingVersionV2
              [Cases.with_autoDetectFrequency (2 * time.Second)%Z]
              (env Cases.unprobed) [] [] Hleave)
    as (_ & Hpass & Hstart).
  split; assumption.
Defined.

(** Three ticks on the cluster whose autoscaling query fails. *)
Lemma periodicAutoDetect_runs_one_pass_per_tick_witness :
  Ready Scenario.probe Scenario.hpa_down /\
  (0 < autoDetectFrequency (config Scenario.hpa_down))%Z /\
  exists evs w',
    periodicAutoDetect 3 Scenario.hpa_down = Done (tt, w') /\
    trace w' = evs /\
    count_events is_routes_call evs = 3.
Proof.
  split; [apply Scenario_Ready|]. split; [reflexivity|].
  destruct (periodicAutoDetect_runs_one_pass_per_tick
              Scenario.probe 3 Scenario.hpa_down (Scenario_Ready _) eq_refl)
    as (evs & w' & Hrun & Htrace & Hcount & _).
  exists evs, w'. repeat split; assumption.
Defined.

(** The same three ticks: as many failure records as failed calls. *)
Lemma periodicAutoDetect_logs_each_failed_pass_once_witness :
  Ready Scenario.probe Scenario.hpa_down /\
  (0 < autoDetectFrequency (config Scenario.hpa_down))%Z /\
  exists evs w',
    periodicAutoDetect 3 Scenario.hpa_down = Done (tt, w') /\
    trace w' = evs /\
    count_events is_failure_log evs = count_events is_failed_probe_call evs.
Proof.
  split; [apply Scenario_Ready|]. split; [reflexivity|].
  exact (periodicAutoDetect_logs_each_failed_pass_once
           Scenario.probe 3 Scenario.hpa_down (Scenario_Ready _) eq_refl).
Defined.

(** The operator whose frequency is zero. *)
Lemma periodicAutoDetect_panics_iff_frequency_not_positive_witness :
  Ready Scenario.probe Cases.unticking /\
  (autoDetectFrequency (config Cases.unticking) <= 0)%Z /\
  periodicAutoDetect 3 Cases.unticking = Panicked.
Proof.
  assert (Hready : Ready Scenario.probe Cases.unticking)
    by (split; reflexivity).
  assert (Hzero : (autoDetectFrequency (config Cases.unticking) <= 0)%Z)
    by discriminate.
  split; [exact Hready|]. split; [exact Hzero|].
  apply (periodicAutoDetect_panics_iff_frequency_not_positive
           Scenario.probe 3 Cases.unticking Hready).
  exact Hzero.
Defined.

(** Four ticks on the operator whose probe always finds the routes. *)
Lemma periodicAutoDetect_notifies_a_lasting_change_once_witness :
  (forall e,
     fst (autodetect.AutoDetect.OpenShiftRoutesAvailability
            (Cases.always autodetect.OpenShiftRoutesAvailable
               autodetect.AutoscalingVersionV1) e)
     = Ok autodetect.OpenShiftRoutesAvailable) /\
  Ready
    (Cases.always autodetect.OpenShiftRoutesAvailable
       autodetect.AutoscalingVersionV1) Cases.settled /\
  (0 < autoDetectFrequency (config Cases.settled))%Z /\
  exists evs w',
    periodicAutoDetect 4 Cases.settled = Done (tt, w') /\
    count_events is_EvDo evs <= 1 /\
    current (openshiftRoutes (config w')) = autodetect.OpenShiftRoutesAvailable.
Proof.
  assert (Hready : Ready
            (Cases.always autodetect.OpenShiftRoutesAvailable
               autodetect.AutoscalingVersionV1) Cases.settled)
    by (split; reflexivity).
  split; [intros e; reflexivity|]. split; [exact Hready|].
  split; [reflexivity|].
  destruct (periodicAutoDetect_notifies_a_lasting_change_once
              (Cases.always autodetect.OpenShiftRoutesAvailable
                 autodetect.AutoscalingVersionV1)
              autodetect.OpenShiftRoutesAvailable 4 Cases.settled
              (fun e => eq_refl) Hready eq_refl)
    as (evs & w' & Hrun & _ & Honce & _ & Hend).
  exists evs, w'. split; [exact Hrun|]. split; [exact Honce|].
  apply Hend. repeat constructor.
Defined.

(** The four ticks, run: the callback ran once. *)
Example settled_loop :
  Scenario.observe
    ((periodicAutoDetect 4 ;; ret None) Cases.settled) =
  Some (None,
        (autodetect.OpenShiftRoutesAvailable,
         autodetect.AutoscalingVersionV1,
         [0],
         ["changed"])).
Proof.
  vm_compute. reflexivity.
Qed.

(** ** An option that writes the detected state *)

(** [New] runs its options after it has set the defaults: with an option
    that writes Available to the store and sets V1, the configuration
    does not start from NotAvailable and the default V2. *)
Lemma New_with_an_overriding_option_starts_elsewhere :
  current (openshiftRoutes Overriding.overridden) =
    autodetect.OpenShiftRoutesAvailable /\
  AutoscalingVersion Overriding.overridden =
    autodetect.AutoscalingVersionV1 /\
  (exists w',
     OpenShiftRoutes
       (Scenario.start Overriding.overridden
          (Scenario.cluster (Ok autodetect.OpenShiftRoutesAvailable)
             (Ok autodetect.AutoscalingVersionV1))) =
     Done (autodetect.OpenShiftRoutesAvailable, w')) /\
  ~ (current (openshiftRoutes Overriding.overridden) =
       autodetect.OpenShiftRoutesNotAvailable /\
     AutoscalingVersion Overriding.overridden =
       autodetect.AutoscalingVersionV2).
Proof.
  split; [reflexivity|]. split; [reflexivity|]. split.
  - rewrite OpenShiftRoutes_free by reflexivity. eexists. reflexivity.
  - intros [H _]. discriminate.
Qed.
